(** * chem_canvas: the Scholarly REST adapter and the OCR extraction function

    A shallow embedding of
      - [huggingface-scholarly-api/app.py]  (module [Scholarly]) and
      - [netlify/functions/ocr_extract.py]  (module [Ocr]),
    with the fragment of Python both rely on (module [Py]).

    Conventions.
    - Python objects flowing through the adapters are the JSON-like values of
      [Py.value]: [None], booleans, integers, strings, lists and dictionaries
      with string keys.  A dictionary is a [gmap string value]; the code only
      looks keys up and tests membership, so insertion order is immaterial.
    - A character of a Rocq [string] stands for one code point below 256.
      On that range [isspace], [lower] and [int] below agree with CPython.
    - A computation that may raise is a [Py.result]; [try]/[except] is a
      [match] on it.
    - What the adapters import (scholarly, pydantic, json, tempfile, urllib,
      paddleocr) is not part of the repository: the calls into those libraries
      are fields of a record of externals.  The general theorems hold for an
      arbitrary such record; the examples run on the concrete ones defined at
      the end of each module. *)

From Stdlib Require Import ZArith Ascii String PrimFloat Lia.
From Stdlib.Strings Require Import Byte.
From stdpp Require Import base option list gmap strings pretty.

Local Open Scope Z_scope.
Local Open Scope string_scope.

Module Py.

(** ** Values and exceptions *)

#[warnings="-register-all"]
Inductive value : Type :=
| VNone
| VBool (b : bool)
| VInt (z : Z)
| VStr (s : string)
| VList (l : list value)
| VDict (d : gmap string value).

(** The exception classes the two adapters can meet.  [LibraryError] is
    whatever an external library raises that is none of the others. *)
Inductive exn : Type :=
| AttributeError
| TypeError
| ValueError
| IndexError
| ImportError
| ValidationError
| LibraryError (msg : string)
| HTTPException (status_code : Z) (detail : string).

Inductive result (A : Type) : Type :=
| Ok (a : A)
| Raise (e : exn).
Arguments Ok {A} a.
Arguments Raise {A} e.

#[global] Instance result_ret : MRet result := fun A a => Ok a.
#[global] Instance result_bind : MBind result := fun A B f m =>
  match m with
  | Ok a => f a
  | Raise e => Raise e
  end.

(** [try: m  except Exception: h] *)
Definition try_except {A} (m : result A) (h : exn -> result A) : result A :=
  match m with
  | Ok a => Ok a
  | Raise e => h e
  end.

Definition raises {A} (m : result A) : bool :=
  match m with
  | Ok _ => false
  | Raise _ => true
  end.

(** ** Generators *)

(** What one call of [next] on a generator gives: an item, the end of the
    stream ([StopIteration]), or an exception of the code that produces the
    items. *)
Inductive pull : Type :=
| Yield (v : value)
| Stop
| Fail (e : exn).

(** A generator is read through its successive pulls: [g i] is what pull
    number [i] gives once the pulls before it have all yielded.  A [for]
    loop ends at the first pull that does not yield, so what lies behind a
    [Stop] or a [Fail] is never asked for. *)
Definition generator : Type := nat -> pull.

(** [next(g, dflt)] on a generator that has not been read yet. *)
Definition next_or (g : generator) (dflt : value) : result value :=
  match g O with
  | Yield v => Ok v
  | Stop => Ok dflt
  | Fail e => Raise e
  end.

(** The items of up to [n] pulls from pull [i] on, cut at the first pull
    that does not yield. *)
Fixpoint yielded_from (g : generator) (i n : nat) : list value :=
  match n with
  | O => []
  | S n' =>
    match g i with
    | Yield v => v :: yielded_from g (S i) n'
    | _ => []
    end
  end.

(** The items the first [n] pulls yield. *)
Definition yielded (n : nat) (g : generator) : list value :=
  yielded_from g 0 n.

(** None of up to [n] pulls from pull [i] on raises: they yield, until one
    of them ends the stream. *)
Fixpoint quiet_from (g : generator) (i n : nat) : bool :=
  match n with
  | O => true
  | S n' =>
    match g i with
    | Yield _ => quiet_from g (S i) n'
    | Stop => true
    | Fail _ => false
    end
  end.

(** None of the first [n] pulls raises. *)
Definition quiet (n : nat) (g : generator) : bool := quiet_from g 0 n.

(** The generator that yields the items of [l] and then goes on as [last]
    says: [Stop] for a stream that ends, [Fail e] for one that breaks. *)
Definition yields (l : list value) (last : pull) : generator :=
  fun i =>
    match l !! i with
    | Some v => Yield v
    | None => last
    end.

(** ** Truth value testing, [or], [dict.get], [in] *)

Definition truthy (v : value) : bool :=
  match v with
  | VNone => false
  | VBool b => b
  | VInt z => negb (Z.eqb z 0)
  | VStr s => negb (String.eqb s "")
  | VList l => negb (Nat.eqb (List.length l) 0)
  | VDict d => negb (Nat.eqb (size d) 0)
  end.

(** [a or b] *)
Definition or_ (a b : value) : value := if truthy a then a else b.

(** [v.get(k, dflt)]: only a dictionary has the method. *)
Definition get (v : value) (k : string) (dflt : value) : result value :=
  match v with
  | VDict d => Ok (default dflt (d !! k))
  | _ => Raise AttributeError
  end.

(** [v == s] for a string literal [s] *)
Definition eq_str (v : value) (s : string) : bool :=
  match v with
  | VStr s' => String.eqb s' s
  | _ => false
  end.

(** ** String methods *)

(** [str.isspace] on one character (code points below 256). *)
Definition isspace (c : ascii) : bool :=
  let n := nat_of_ascii c in
  ((9 <=? n) && (n <=? 13) || (28 <=? n) && (n <=? 32)
   || (n =? 133) || (n =? 160))%nat.

Fixpoint lstrip (s : string) : string :=
  match s with
  | String c s' => if isspace c then lstrip s' else s
  | EmptyString => EmptyString
  end.

Definition rstrip (s : string) : string := String.rev (lstrip (String.rev s)).

(** [s.strip()] *)
Definition strip (s : string) : string := rstrip (lstrip s).

(** [s.split(sep)] for a non-empty separator: cut at the leftmost
    occurrences, left to right.  [skip] counts the characters of a matched
    separator still to be dropped; [cur] is the current piece, reversed. *)
Fixpoint split_go (sep : string) (skip : nat) (cur : string) (s : string)
  : list string :=
  match s with
  | EmptyString => [String.rev cur]
  | String c s' =>
    match skip with
    | S k => split_go sep k cur s'
    | O =>
      if String.prefix sep s
      then String.rev cur :: split_go sep (String.length sep - 1) "" s'
      else split_go sep 0 (String c cur) s'
    end
  end.

Definition split (sep s : string) : list string := split_go sep 0 "" s.

(** [s.split()]: the maximal runs of non-whitespace characters. *)
Fixpoint split_ws_go (cur : string) (s : string) : list string :=
  match s with
  | EmptyString =>
    match cur with
    | EmptyString => []
    | _ => [String.rev cur]
    end
  | String c s' =>
    if isspace c
    then match cur with
         | EmptyString => split_ws_go "" s'
         | _ => String.rev cur :: split_ws_go "" s'
         end
    else split_ws_go (String c cur) s'
  end.

Definition split_ws (s : string) : list string := split_ws_go "" s.

Definition lower_char (c : ascii) : ascii :=
  let n := nat_of_ascii c in
  if ((65 <=? n) && (n <=? 90)
      || (192 <=? n) && (n <=? 222) && negb (n =? 215))%nat
  then ascii_of_nat (n + 32)
  else c.

(** [s.lower()] *)
Fixpoint lower (s : string) : string :=
  match s with
  | EmptyString => EmptyString
  | String c s' => String (lower_char c) (lower s')
  end.

(** [sub in s] on strings *)
Fixpoint substring_in (sub s : string) : bool :=
  match s with
  | EmptyString => String.prefix sub s
  | String _ s' => String.prefix sub s || substring_in sub s'
  end.

(** [sep.join(l)] *)
Definition join (sep : string) (l : list string) : string :=
  String.concat sep l.

(** [k in v] for a string [k]: key of a dictionary, element of a list,
    substring of a string; the other values are not containers. *)
Definition contains (k : string) (v : value) : result bool :=
  match v with
  | VDict d => Ok (bool_decide (is_Some (d !! k)))
  | VList l =>
    Ok (existsb (fun x => match x with
                          | VStr s => String.eqb s k
                          | _ => false
                          end) l)
  | VStr s => Ok (substring_in k s)
  | _ => Raise TypeError
  end.

(** Methods that exist on [str] only. *)
Definition str_split (v : value) (sep : string) : result (list string) :=
  match v with
  | VStr s => Ok (split sep s)
  | _ => Raise AttributeError
  end.

Definition str_split_ws (v : value) : result (list string) :=
  match v with
  | VStr s => Ok (split_ws s)
  | _ => Raise AttributeError
  end.

Definition str_lower (v : value) : result string :=
  match v with
  | VStr s => Ok (lower s)
  | _ => Raise AttributeError
  end.

(** ** [int(...)] *)

Definition digit_of (c : ascii) : option Z :=
  let n := nat_of_ascii c in
  if ((48 <=? n) && (n <=? 57))%nat then Some (Z.of_nat n - 48) else None.

(** Decimal digits, single underscores allowed between two digits. *)
Fixpoint digits_go (acc : Z) (after_digit : bool) (s : string) : option Z :=
  match s with
  | EmptyString => if after_digit then Some acc else None
  | String c s' =>
    match digit_of c with
    | Some d => digits_go (10 * acc + d) true s'
    | None =>
      if Ascii.eqb c "_" && after_digit
      then match s' with
           | EmptyString => None
           | _ => digits_go acc false s'
           end
      else None
    end
  end.

(** The characters [int] passes over around a number: the blanks of C's
    [isspace], and NEL and NBSP, which [int] first turns into blanks.  The
    separators 28 to 31 are whitespace for [str.isspace] but not here:
    [int('\x1c2020')] is a [ValueError]. *)
Definition int_space (c : ascii) : bool :=
  let n := nat_of_ascii c in
  ((9 <=? n) && (n <=? 13) || (n =? 32) || (n =? 133) || (n =? 160))%nat.

Fixpoint int_lstrip (s : string) : string :=
  match s with
  | String c s' => if int_space c then int_lstrip s' else s
  | EmptyString => EmptyString
  end.

Definition int_strip (s : string) : string :=
  String.rev (int_lstrip (String.rev (int_lstrip s))).

(** The number of decimal digits of a string. *)
Fixpoint digit_count (s : string) : nat :=
  match s with
  | EmptyString => 0
  | String c s' =>
    match digit_of c with
    | Some _ => S (digit_count s')
    | None => digit_count s'
    end
  end.

(** [sys.int_info.default_max_str_digits]: a longer literal is refused. *)
Definition int_max_str_digits : nat := 4300.

(** [int(s)] for a string: surrounding whitespace, an optional sign, then
    at most [int_max_str_digits] digits.  [None] stands for the
    [ValueError]. *)
Definition int_of_str (s : string) : option Z :=
  let number (ds : string) :=
    if (digit_count ds <=? int_max_str_digits)%nat
    then digits_go 0 false ds
    else None in
  match int_strip s with
  | String "-" ds => Z.opp <$> number ds
  | String "+" ds => number ds
  | ds => number ds
  end.

Definition int (v : value) : result Z :=
  match v with
  | VInt z => Ok z
  | VBool b => Ok (if b then 1 else 0)
  | VStr s =>
    match int_of_str s with
    | Some z => Ok z
    | None => Raise ValueError
    end
  | _ => Raise TypeError
  end.

End Py.

(** * app.py: the Scholarly adapter *)

Module Scholarly.
Import Py.

(** ** What the adapter imports

    [fill] and [search_pubs] are the two calls into the scholarly library.
    [scholarly.fill(pub)] updates the dictionary it is given in place:
    [fill pub] is what the call returns or raises, paired with what the
    argument has become.  [search_pubs] returns a generator, which the
    endpoints read lazily.
    [repr] is Python's text for the values that are not strings, [exn_str]
    is [str(e)].  The three [lax_*] fields are pydantic's coercions of an
    input that is not already of the declared type of a field; they differ
    between pydantic versions and are left open.  An input that already has
    the declared type is accepted unchanged by every version, which is how
    [validate_str], [validate_int] and [validate_list] below are written. *)
Record externals : Type := {
  fill : value -> result value * value;
  search_pubs : string -> result generator;
  repr : value -> string;
  exn_str : exn -> string;
  lax_str : value -> option string;
  lax_int : value -> option Z;
  lax_list : value -> option (list value)
}.

(** ** Pydantic models *)

Record Publication : Type := {
  title : string;
  authors : list string;
  year : option Z;
  abstract : option string;
  venue : option string;
  citations : option Z;
  url : option string;
  bibtex : option string;
  scholar_url : option string
}.

Record SearchResult : Type := {
  publications : list Publication;
  total_results : option Z;
  query : string
}.

Record SimilarPapersResult : Type := {
  similar_papers : list Publication;
  original_title : string
}.

(** The dictionary returned by [get_bibtex]. *)
Record BibtexResponse : Type := {
  bib_title : value;
  bib_bibtex : value;
  bib_authors : value;
  bib_year : value;
  bib_venue : value
}.

Section WithExternals.
Variable E : externals.

(** [str(v)], also what an f-string puts for [{v}]. *)
Definition str (v : value) : string :=
  match v with
  | VStr s => s
  | _ => repr E v
  end.

Definition of_option {A} (o : option A) : result A :=
  match o with
  | Some a => Ok a
  | None => Raise ValidationError
  end.

(** Field of type [str]. *)
Definition validate_str (v : value) : result string :=
  match v with
  | VStr s => Ok s
  | _ => of_option (lax_str E v)
  end.

(** Field of type [int]. *)
Definition validate_int (v : value) : result Z :=
  match v with
  | VInt z => Ok z
  | _ => of_option (lax_int E v)
  end.

(** Field of type [Optional[T]]: [None] is accepted as it is. *)
Definition validate_optional {A} (f : value -> result A) (v : value)
  : result (option A) :=
  match v with
  | VNone => Ok None
  | _ => a ← f v; Ok (Some a)
  end.

(** Field of type [List[str]]. *)
Definition validate_list (v : value) : result (list string) :=
  l ← match v with
      | VList l => Ok l
      | _ => of_option (lax_list E v)
      end;
  mapM validate_str l.

(** [Publication(title=..., authors=..., ...)] with all nine fields given. *)
Definition Publication_full
  (title_ authors_ year_ abstract_ venue_ citations_ url_ bibtex_ scholar_url_
     : value) : result Publication :=
  t ← validate_str title_;
  a ← validate_list authors_;
  y ← validate_optional validate_int year_;
  ab ← validate_optional validate_str abstract_;
  ve ← validate_optional validate_str venue_;
  ci ← validate_optional validate_int citations_;
  u ← validate_optional validate_str url_;
  bt ← validate_optional validate_str bibtex_;
  su ← validate_optional validate_str scholar_url_;
  Ok {| title := t; authors := a; year := y; abstract := ab; venue := ve;
        citations := ci; url := u; bibtex := bt; scholar_url := su |}.

(** [Publication(title=..., authors=..., year=...)]: the other fields take
    their declared default [None]. *)
Definition Publication_minimal (title_ authors_ year_ : value)
  : result Publication :=
  t ← validate_str title_;
  a ← validate_list authors_;
  y ← validate_optional validate_int year_;
  Ok {| title := t; authors := a; year := y; abstract := None; venue := None;
        citations := None; url := None; bibtex := None; scholar_url := None |}.

(** ** parse_publication *)

(** Lines 92-121: the body of the [try] once [pub] is bound. *)
Definition normalize (pub : value) : result Publication :=
  bib ← get pub "bib" (VDict ∅);
  authors0 ← get bib "author" (VStr "");
  let authors_ :=
    match authors0 with
    | VStr s => VList (VStr <$> (strip <$> split " and " s))
    | VList l => VList l
    | _ => VList []
    end in
  pub_year ← get bib "pub_year" VNone;
  year1 ← get bib "year" VNone;
  let year0 := or_ pub_year year1 in
  let year_ :=
    if truthy year0
    then match int year0 with
         | Ok z => VInt z
         | Raise _ => VNone
         end
    else year0 in
  title_ ← get bib "title" (VStr "Unknown Title");
  abstract_ ← get bib "abstract" (VStr "");
  venue1 ← get bib "venue" (VStr "");
  journal ← get bib "journal" (VStr "");
  booktitle ← get bib "booktitle" (VStr "");
  citations_ ← get pub "num_citations" (VInt 0);
  url_ ← get pub "pub_url" (VStr "");
  bibtex_ ← get pub "bibtex" (VStr "");
  scholar_url_ ← get pub "url_scholarbib" (VStr "");
  Publication_full title_ authors_ year_ abstract_
    (or_ (or_ venue1 journal) booktitle)
    citations_ url_ bibtex_ scholar_url_.

(** Lines 122-128: the [except Exception] handler, run on the [pub] that is
    in scope when the exception arrives. *)
Definition recover (pub : value) : result Publication :=
  bib ← get pub "bib" (VDict ∅);
  t ← get bib "title" (VStr "Unknown");
  Publication_minimal (VStr (str t)) (VList []) VNone.

(** Line 90: whether [scholarly.fill] is called and raises. *)
Definition fill_raised (pub : value) (fill_details : bool) : bool :=
  if fill_details then raises (fill E pub).1 else false.

(** What the variable [pub] denotes once line 90 is passed: the argument
    itself; with detail expansion, what [fill] returned, or, when [fill]
    raised, what it had made of the argument by then. *)
Definition in_scope (pub : value) (fill_details : bool) : value :=
  if fill_details
  then match fill E pub with
       | (Ok pub', _) => pub'
       | (Raise _, pub') => pub'
       end
  else pub.

Definition parse_publication (pub : value) (fill_details : bool)
  : result Publication :=
  if fill_raised pub fill_details
  then recover (in_scope pub fill_details)
  else try_except (normalize (in_scope pub fill_details))
         (fun _ => recover (in_scope pub fill_details)).

(** ** GET /search/publications *)

(** The [for i, pub in enumerate(search_query)] loop of lines 164-167.
    Every turn first pulls an item, which may end the loop or raise, and
    only then tests [i >= limit]: a stream that is long enough is pulled
    [limit + 1] times.  [wanted] is [limit - i], the number of items still
    wanted, so that the test [i >= limit] reads [wanted = 0].
    [limit] has passed FastAPI's [Query(ge=1, le=50)] check when the body
    runs; the body is modelled for every natural number. *)
Fixpoint search_loop (wanted i : nat) (search_query : generator)
  (publications : list Publication) : result (list Publication) :=
  match search_query i with
  | Stop => Ok publications
  | Fail e => Raise e
  | Yield pub =>
    match wanted with
    | O => Ok publications
    | S wanted' =>
      p ← parse_publication pub false;
      search_loop wanted' (S i) search_query (publications ++ [p])
    end
  end.

Definition search_publications (query_ : string) (limit : nat)
  : result SearchResult :=
  try_except
    (search_query ← search_pubs E query_;
     publications ← search_loop limit 0 search_query [];
     Ok {| publications := publications;
           total_results := Some (Z.of_nat (List.length publications));
           query := query_ |})
    (fun e => Raise (HTTPException 500 ("Search failed: " +:+ exn_str E e))).

(** ** GET /similar *)

(** The loop of lines 277-283, read like the loop above: [wanted] is
    [limit + 1 - i] and the test [i >= limit + 1] reads [wanted = 0]. *)
Fixpoint similar_loop (wanted : nat) (original_title_ : string) (i : nat)
  (similar_search : generator) (similar_papers_ : list Publication)
  : result (list Publication) :=
  match similar_search i with
  | Stop => Ok similar_papers_
  | Fail e => Raise e
  | Yield pub =>
    match wanted with
    | O => Ok similar_papers_
    | S wanted' =>
      bib ← get pub "bib" (VDict ∅);
      pub_title ← get bib "title" (VStr "");
      lowered ← str_lower pub_title;
      if negb (String.eqb lowered (lower original_title_))
      then p ← parse_publication pub false;
           similar_loop wanted' original_title_ (S i) similar_search
             (similar_papers_ ++ [p])
      else similar_loop wanted' original_title_ (S i) similar_search
             similar_papers_
    end
  end.

(** [except HTTPException: raise] followed by [except Exception as e]. *)
Definition reraise_http {A} (prefix : string) (m : result A) : result A :=
  try_except m (fun e =>
    match e with
    | HTTPException _ _ => Raise e
    | _ => Raise (HTTPException 500 (prefix +:+ exn_str E e))
    end).

(** [next(search_query, None)] and the [if not paper] test. *)
Definition first_paper (search_query : generator) : result value :=
  paper ← next_or search_query VNone;
  if truthy paper then Ok paper
  else Raise (HTTPException 404 "Paper not found").

Definition get_similar_papers (title_ : string) (limit : nat)
  : result SimilarPapersResult :=
  reraise_http "Failed to find similar papers: "
    (search_query ← search_pubs E title_;
     paper ← first_paper search_query;
     bib ← get paper "bib" (VDict ∅);
     original_title0 ← get bib "title" (VStr title_);
     words ← str_split_ws original_title0;
     let keywords := join " " (take 5 words) in
     similar_search ← search_pubs E keywords;
     match original_title0 with
     | VStr original_title_ =>
       similar_papers_ ←
         similar_loop (limit + 1) original_title_ 0 similar_search [];
       Ok {| similar_papers := take limit similar_papers_;
             original_title := original_title_ |}
     | _ => Raise AttributeError
     end).

(** ** GET /bibtex *)

Definition nl : string := String (ascii_of_nat 10) EmptyString.

(** Lines 319-323. *)
Definition entry_type_of (bib : value) : result string :=
  has_booktitle ← contains "booktitle" bib;
  if (has_booktitle : bool) then Ok "inproceedings"
  else
    has_journal ← contains "journal" bib;
    if (has_journal : bool) then Ok "article"
    else
      has_venue ← contains "venue" bib;
      if (has_venue : bool) then Ok "article" else Ok "misc".

(** Lines 340-344: the line that carries the venue. *)
Definition venue_line (entry_type : string) (venue_ : value) : string :=
  if truthy venue_
  then if String.eqb entry_type "inproceedings"
       then "  booktitle = {" +:+ str venue_ +:+ "}," +:+ nl
       else "  journal = {" +:+ str venue_ +:+ "}," +:+ nl
  else "".

Definition year_line (year_ : value) : string :=
  if truthy year_ then "  year = {" +:+ str year_ +:+ "}," +:+ nl else "".

(** Lines 331-333. *)
Definition cite_key_of (author year_ : value) : result string :=
  has_and ← contains " and " author;
  first_author ←
    (if (has_and : bool)
     then parts ← str_split author " and ";
          match parts with
          | a :: _ => Ok (VStr a)
          | [] => Raise IndexError
          end
     else Ok author);
  last_name ←
    (if truthy first_author
     then ws ← str_split_ws first_author;
          match last ws with
          | Some w => Ok w
          | None => Raise IndexError
          end
     else Ok "unknown");
  Ok (lower last_name +:+ str year_).

(** Lines 318-345: the entry written when the paper carries no bibtex
    string.  Returns the text and the rebound local [title]. *)
Definition synthesize (bib : value) : result (string * value) :=
  entry_type ← entry_type_of bib;
  author ← get bib "author" (VStr "Unknown");
  title_ ← get bib "title" (VStr "Unknown");
  year1 ← get bib "year" (VStr "");
  year_ ← get bib "pub_year" year1;
  venue1 ← get bib "venue" (VStr "");
  journal ← get bib "journal" (VStr "");
  booktitle ← get bib "booktitle" (VStr "");
  let venue_ := or_ (or_ venue1 journal) booktitle in
  cite_key ← cite_key_of author year_;
  Ok ("@" +:+ entry_type +:+ "{" +:+ cite_key +:+ "," +:+ nl
      +:+ "  author = {" +:+ str author +:+ "}," +:+ nl
      +:+ "  title = {" +:+ str title_ +:+ "}," +:+ nl
      +:+ year_line year_
      +:+ venue_line entry_type venue_
      +:+ "}",
      title_).

Definition get_bibtex (title_ : string) : result BibtexResponse :=
  reraise_http "Failed to get BibTeX: "
    (search_query ← search_pubs E title_;
     paper0 ← first_paper search_query;
     paper ← (fill E paper0).1;
     bib ← get paper "bib" (VDict ∅);
     bibtex0 ← get paper "bibtex" (VStr "");
     made ←
       (if truthy bibtex0
        then Ok (bibtex0, VStr title_)
        else entry ← synthesize bib; Ok (VStr entry.1, entry.2));
     let bibtex_ : value := made.1 in
     r_title ← get bib "title" made.2;
     r_authors ← get bib "author" (VStr "");
     r_year1 ← get bib "year" (VStr "");
     r_year ← get bib "pub_year" r_year1;
     r_venue1 ← get bib "venue" (VStr "");
     r_journal ← get bib "journal" (VStr "");
     Ok {| bib_title := r_title; bib_bibtex := bibtex_;
           bib_authors := r_authors; bib_year := r_year;
           bib_venue := or_ r_venue1 r_journal |}).

End WithExternals.

(** ** Notions the statements below use *)

(** [pub.get('bib', {})], when [pub] is a dictionary and that value is one. *)
Definition bib_of (pub : value) : option (gmap string value) :=
  match pub with
  | VDict d =>
    match d !! "bib" with
    | None => Some ∅
    | Some (VDict b) => Some b
    | Some _ => None
    end
  | _ => None
  end.

(** [bib.get('pub_year') or bib.get('year')] *)
Definition year_field (b : gmap string value) : value :=
  or_ (default VNone (b !! "pub_year")) (default VNone (b !! "year")).

(** Lines 95-101: what [authors] is bound to for a bib mapping. *)
Definition authors_arg (b : gmap string value) : value :=
  match default (VStr "") (b !! "author") with
  | VStr s => VList (VStr <$> (strip <$> split " and " s))
  | VList l => VList l
  | _ => VList []
  end.

(** Lines 104-109: what [year] is bound to for a bib mapping. *)
Definition year_arg (b : gmap string value) : value :=
  if truthy (year_field b)
  then match int (year_field b) with
       | Ok z => VInt z
       | Raise _ => VNone
       end
  else year_field b.

(** Whether [parse_publication] answers from its [except] handler: an
    exception was raised by [fill] or by the rest of the [try] body. *)
Definition failed (E : externals) (pub : value) (fill_details : bool)
  : bool :=
  fill_raised E pub fill_details
  || raises (normalize E (in_scope E pub fill_details)).

(** [Publication(title=t, authors=[], year=None)] *)
Definition minimal (t : string) : Publication :=
  {| title := t; authors := []; year := None; abstract := None;
     venue := None; citations := None; url := None; bibtex := None;
     scholar_url := None |}.

(** [str(bib.get('title', 'Unknown'))] *)
Definition salvaged_title (E : externals) (b : gmap string value) : string :=
  str E (default (VStr "Unknown") (b !! "title")).

(** [pub.get('bib', {}).get('title', '')], when it is a string. *)
Definition entry_title (pub : value) : option string :=
  match bib_of pub with
  | Some b =>
    match default (VStr "") (b !! "title") with
    | VStr t => Some t
    | _ => None
    end
  | None => None
  end.

(** The title of [pub] is the original title up to case. *)
Definition same_title (original : string) (pub : value) : bool :=
  match entry_title pub with
  | Some t => String.eqb (lower t) (lower original)
  | None => false
  end.

(** The entry type as section 4.3 of the specification words it. *)
Definition spec_entry_type (b : gmap string value) : string :=
  if bool_decide (is_Some (b !! "booktitle")) then "inproceedings"
  else if bool_decide (b !! "journal" = None ∧ b !! "venue" = None)
  then "misc"
  else "article".

(** [venue or journal or booktitle] of a bib mapping *)
Definition venue_of (b : gmap string value) : value :=
  or_ (or_ (default (VStr "") (b !! "venue"))
           (default (VStr "") (b !! "journal")))
      (default (VStr "") (b !! "booktitle")).

(** A pydantic in strict mode: no coercion at all.  [repr] writes [None],
    the booleans and the integers as Python does and leaves containers
    unprinted; it is only used to run examples. *)
Definition strict (fill_ : value -> result value * value)
  (search_pubs_ : string -> result generator) : externals :=
  {| fill := fill_;
     search_pubs := search_pubs_;
     repr := fun v =>
       match v with
       | VNone => "None"
       | VBool true => "True"
       | VBool false => "False"
       | VInt z => pretty z
       | _ => "..."
       end;
     exn_str := fun _ => "error";
     lax_str := fun _ => None;
     lax_int := fun _ => None;
     lax_list := fun _ => None |}.

(** The strict externals with a [fill] that returns its argument unchanged
    and a search that finds nothing. *)
Definition offline : externals :=
  strict (fun v => (Ok v, v)) (fun _ => Ok (yields [] Stop)).

(** A search result that carries a title only. *)
Definition paper (t : string) : value :=
  VDict {["bib" := VDict {["title" := VStr t]}]}.

(** The three papers of the examples. *)
Definition shelf : list value :=
  [paper "Deep Learning"; paper "Graph Kernels"; paper "DEEP learning"].

(** Strict externals over a scholar that answers every search with the same
    three papers. *)
Definition library : externals :=
  strict (fun v => (Ok v, v)) (fun _ => Ok (yields shelf Stop)).

(** Strict externals over a scholar whose every search yields one paper and
    then breaks, as when Google Scholar blocks the next page. *)
Definition blocked : externals :=
  strict (fun v => (Ok v, v))
    (fun _ => Ok (yields [paper "Deep Learning"]
                    (Fail (LibraryError "blocked")))).

(** [parse_publication(e, fill_details=False)] returns [p]. *)
Definition parsed (E : externals) (e : value) (p : Publication) : Prop :=
  parse_publication E e false = Ok p.

End Scholarly.

(** * ocr_extract.py: the OCR extraction function *)

Module Ocr.
Import Py.

(** ** Files and effects

    The only state the function touches is the file system: a finite map
    from paths to contents.  An effectful step takes the files, may raise,
    and leaves the files it leaves. *)
Abbreviation files := (gmap string (list Byte.byte)).

Definition io (A : Type) : Type := files -> result A * files.

#[global] Instance io_ret : MRet io := fun A a σ => (Ok a, σ).
#[global] Instance io_bind : MBind io := fun A B f m σ =>
  match m σ with
  | (Ok a, σ') => f a σ'
  | (Raise e, σ') => (Raise e, σ')
  end.

Definition lift {A} (r : result A) : io A := fun σ => (r, σ).

(** [try: m  except Exception as e: h e] *)
Definition io_try {A} (m : io A) (h : exn -> io A) : io A := fun σ =>
  match m σ with
  | (Ok a, σ') => (Ok a, σ')
  | (Raise e, σ') => h e σ'
  end.

(** [try: m  finally: c]: [c] runs on both exits; when it raises, its
    exception is the one that leaves. *)
Definition io_finally {A} (m : io A) (c : io unit) : io A := fun σ =>
  let '(r, σ1) := m σ in
  match c σ1 with
  | (Ok _, σ2) => (r, σ2)
  | (Raise e, σ2) => (Raise e, σ2)
  end.

(** [os.path.exists] and [os.unlink] *)
Definition exists_ (path : string) : io bool := fun σ =>
  (Ok (bool_decide (is_Some (σ !! path))), σ).

Definition unlink (path : string) : io unit := fun σ =>
  match σ !! path with
  | Some _ => (Ok (), delete path σ)
  | None => (Raise (LibraryError "No such file or directory"), σ)
  end.

(** ** What the OCR engine returns

    One element of [ocr.predict(...)]: each of the three attributes may be
    missing ([hasattr]).  A score is given as the float it converts to, a
    polygon as its [tolist()]. *)
Record ocr_res : Type := {
  rec_texts : option (list value);
  rec_scores : option (list PrimFloat.float);
  dt_polys : option (list value)
}.

(** ** The response documents

    Every dictionary the function passes to [json.dumps] has string, number,
    boolean and list leaves only, so the dump cannot fail; a body is
    represented by the dictionary it is the dump of.  The constant ['type']
    entry of a table, figure or formula dictionary is left out. *)
Record text_block : Type := {
  text : value;
  confidence : PrimFloat.float;
  bbox : value
}.

Record table_data : Type := {
  table_bbox : value;
  html : value;
  cells : value
}.

Record figure_data : Type := {
  figure_bbox : value;
  caption : value
}.

Record formula_data : Type := {
  formula_bbox : value;
  latex : value
}.

(** The [result] dictionary of [process_with_paddleocr] and the dictionary
    of [fallback_ocr_response]; a key one of them lacks is [None]. *)
Record document : Type := {
  success : bool;
  fallback : option bool;
  message : option string;
  text_blocks : list text_block;
  tables : list table_data;
  figures : list figure_data;
  formulas : list formula_data;
  raw_text : string;
  use_client_ocr : option bool
}.

Inductive payload : Type :=
| NoBody
| ErrorBody (error : string)
| Document (d : document).

Record response : Type := {
  statusCode : Z;
  headers : list (string * string);
  body : payload
}.

(** ** What the function imports *)
Record platform : Type := {
  json_loads : value -> result value;
  exn_str : exn -> string;
  (** [from paddleocr import PaddleOCR]: [None] when the import succeeds *)
  import_PaddleOCR : option exn;
  (** [from paddleocr import PPStructure] *)
  import_PPStructure : option exn;
  b64decode : value -> result (list Byte.byte);
  (** [tempfile.NamedTemporaryFile(delete=False, suffix='.png')]: the name
      of the file it creates *)
  NamedTemporaryFile : io string;
  (** [f.write(data)] followed by the [close] of the [with] block *)
  write : string -> list Byte.byte -> io unit;
  urlretrieve : value -> string -> io unit;
  (** [PaddleOCR(...).predict(input=path)] *)
  predict : value -> io (list ocr_res);
  (** [PPStructure(...)(path)] *)
  structure : value -> io (list value)
}.

Section WithPlatform.
Variable P : platform.

Definition cors_headers : list (string * string) :=
  [("Access-Control-Allow-Origin", "*");
   ("Access-Control-Allow-Headers", "Content-Type");
   ("Access-Control-Allow-Methods", "POST, OPTIONS");
   ("Content-Type", "application/json")].

Definition import_ (i : option exn) : result unit :=
  match i with
  | None => Ok ()
  | Some e => Raise e
  end.

(** ** fallback_ocr_response *)
Definition fallback_ocr_response (body_ : value)
  (headers_ : list (string * string)) : response :=
  {| statusCode := 200;
     headers := headers_;
     body := Document
       {| success := true;
          fallback := Some true;
          message := Some
            "PaddleOCR not available on server. Using client-side extraction.";
          text_blocks := [];
          tables := [];
          figures := [];
          formulas := [];
          raw_text := "";
          use_client_ocr := Some true |} |}.

(** ** process_with_paddleocr *)

(** [l[i]] *)
Definition index {A} (l : list A) (i : nat) : result A :=
  match l !! i with
  | Some x => Ok x
  | None => Raise IndexError
  end.

(** Lines 132-139: the blocks of one [res], for [rec_texts] from index [i]. *)
Fixpoint blocks_of (res : ocr_res) (i : nat) (texts : list value)
  : result (list text_block) :=
  match texts with
  | [] => Ok []
  | t :: rest =>
    c ← match rec_scores res with
        | Some scores => index scores i
        | None => Ok 1%float
        end;
    b ← match dt_polys res with
        | Some polys => index polys i
        | None => Ok VNone
        end;
    more ← blocks_of res (S i) rest;
    Ok ({| text := t; confidence := c; bbox := b |} :: more)
  end.

(** Lines 130-139. *)
Fixpoint all_blocks (ocr_result : list ocr_res) : result (list text_block) :=
  match ocr_result with
  | [] => Ok []
  | res :: rest =>
    here ← match rec_texts res with
           | Some texts => blocks_of res 0 texts
           | None => Ok []
           end;
    more ← all_blocks rest;
    Ok (List.app here more)
  end.

(** [' '.join(all_text)]: every text has to be a [str]. *)
Definition join_texts (all_text : list value) : result string :=
  l ← mapM (fun v => match v with
                     | VStr s => Ok s
                     | _ => Raise TypeError
                     end) all_text;
  Ok (join " " l).

(** Lines 154-180: one item of the structure pass, appended to the lists. *)
Definition add_item (item : value) (d : document) : result document :=
  item_type ← get item "type" (VStr "text");
  if eq_str item_type "table"
  then
    b ← get item "bbox" (VList []);
    r1 ← get item "res" (VDict ∅);
    h ← get r1 "html" (VStr "");
    r2 ← get item "res" (VDict ∅);
    c ← get r2 "cells" (VList []);
    Ok {| success := success d; fallback := fallback d; message := message d;
          text_blocks := text_blocks d;
          tables := tables d ++ [{| table_bbox := b; html := h; cells := c |}];
          figures := figures d; formulas := formulas d;
          raw_text := raw_text d; use_client_ocr := use_client_ocr d |}
  else if eq_str item_type "figure"
  then
    b ← get item "bbox" (VList []);
    r1 ← get item "res" (VDict ∅);
    c ← get r1 "caption" (VStr "");
    Ok {| success := success d; fallback := fallback d; message := message d;
          text_blocks := text_blocks d; tables := tables d;
          figures := figures d ++ [{| figure_bbox := b; caption := c |}];
          formulas := formulas d;
          raw_text := raw_text d; use_client_ocr := use_client_ocr d |}
  else if eq_str item_type "equation"
  then
    b ← get item "bbox" (VList []);
    r1 ← get item "res" (VDict ∅);
    l ← get r1 "latex" (VStr "");
    Ok {| success := success d; fallback := fallback d; message := message d;
          text_blocks := text_blocks d; tables := tables d;
          figures := figures d;
          formulas := formulas d ++ [{| formula_bbox := b; latex := l |}];
          raw_text := raw_text d; use_client_ocr := use_client_ocr d |}
  else Ok d.

Fixpoint add_items (items : list value) (d : document) : result document :=
  match items with
  | [] => Ok d
  | item :: rest => d' ← add_item item d; add_items rest d'
  end.

(** Lines 144-184: the structure pass; an [ImportError] leaves the
    document as the text pass made it. *)
Definition structure_pass (image_path : value) (d : document)
  : io document :=
  io_try
    (_ ← lift (import_ (import_PPStructure P));
     structure_result ← structure P image_path;
     lift (add_items structure_result d))
    (fun e => match e with
              | ImportError => mret d
              | _ => lift (Raise e)
              end).

Definition process_with_paddleocr (image_path extract_type : value)
  : io document :=
  _ ← lift (import_ (import_PaddleOCR P));
  ocr_result ← predict P image_path;
  blocks ← lift (all_blocks ocr_result);
  raw ← lift (join_texts (text <$> blocks));
  structure_pass image_path
    {| success := true; fallback := None; message := None;
       text_blocks := blocks; tables := []; figures := []; formulas := [];
       raw_text := raw; use_client_ocr := None |}.

(** ** handler *)

(** Lines 65-76: the image is put into a file; the value is [temp_path],
    [None] when neither branch runs. *)
Definition materialize (image_data file_url : value) : io value :=
  if truthy image_data
  then image_bytes ← lift (b64decode P image_data);
       name ← NamedTemporaryFile P;
       _ ← write P name image_bytes;
       mret (VStr name)
  else if truthy file_url
  then name ← NamedTemporaryFile P;
       _ ← urlretrieve P file_url name;
       mret (VStr name)
  else mret VNone.

(** Lines 86-89: the [finally] block. *)
Definition cleanup (temp_path : value) : io unit :=
  match temp_path with
  | VStr path =>
    if truthy temp_path
    then there ← exists_ path;
         if (there : bool) then unlink path else mret ()
    else mret ()
  | _ => mret ()
  end.

(** Lines 44-89: the body of the outer [try]. *)
Definition handle (event : value) : io response :=
  raw ← lift (get event "body" (VStr "{}"));
  body_ ← lift (json_loads P raw);
  image_data ← lift (get body_ "image" VNone);
  file_url ← lift (get body_ "file_url" VNone);
  extract_type ← lift (get body_ "extract_type" (VStr "all"));
  if negb (truthy image_data) && negb (truthy file_url)
  then mret {| statusCode := 400; headers := cors_headers;
               body := ErrorBody "No image data or file URL provided" |}
  else
    match import_PaddleOCR P with
    | Some ImportError => mret (fallback_ocr_response body_ cors_headers)
    | Some e => lift (Raise e)
    | None =>
      temp_path ← materialize image_data file_url;
      io_finally
        (result_ ← process_with_paddleocr temp_path extract_type;
         mret {| statusCode := 200; headers := cors_headers;
                 body := Document result_ |})
        (cleanup temp_path)
    end.

Definition handler (event : value) : io response :=
  method ← lift (get event "httpMethod" VNone);
  if eq_str method "OPTIONS"
  then mret {| statusCode := 200; headers := cors_headers; body := NoBody |}
  else
    io_try (handle event)
      (fun e => mret {| statusCode := 500; headers := cors_headers;
                        body := ErrorBody (exn_str P e) |}).

End WithPlatform.

(** A platform to run examples on: the request body is parsed by [loads],
    the import of PaddleOCR does what [import_ocr] says, the temporary file
    is [/tmp/tmp0.png], no URL can be retrieved ([urlretrieve] raises the
    [ValueError] of an unknown URL type, the only [ValueError] on this
    platform), and the engine finds nothing. *)
Definition sample (loads : value -> result value) (import_ocr : option exn)
  : platform :=
  {| json_loads := loads;
     exn_str := fun e =>
       match e with
       | ValueError => "unknown url type: 'not-a-url'"
       | _ => "error"
       end;
     import_PaddleOCR := import_ocr;
     import_PPStructure := Some ImportError;
     b64decode := fun _ => Ok [];
     NamedTemporaryFile := fun σ =>
       (Ok "/tmp/tmp0.png", <["/tmp/tmp0.png" := []]> σ);
     write := fun name data σ => (Ok (), <[name := data]> σ);
     urlretrieve := fun _ _ σ => (Raise ValueError, σ);
     predict := fun _ σ => (Ok [], σ);
     structure := fun _ σ => (Ok [], σ) |}.

(** A request; the text of its body stands for the JSON that [json_loads]
    of the platform parses. *)
Definition request (method body_text : string) : value :=
  VDict (<["httpMethod" := VStr method]> {["body" := VStr body_text]}).

(** Two bodies with the same inline image, asking for text and for tables. *)
Definition loads_image (raw : value) : result value :=
  if eq_str raw "image, text"
  then Ok (VDict (<["extract_type" := VStr "text"]>
                    {["image" := VStr "aGk="]}))
  else Ok (VDict (<["extract_type" := VStr "table"]>
                    {["image" := VStr "aGk="]})).

(** A body that names a file to fetch. *)
Definition loads_url (raw : value) : result value :=
  Ok (VDict {["file_url" := VStr "not-a-url"]}).

End Ocr.

(** * app.py: the remaining endpoints *)

Module Lookups.
Import Py Scholarly.

(** The two further calls into the scholarly library; both return
    generators. *)
Record scholar : Type := {
  scholarly_search_author : string -> result generator;
  scholarly_citedby : value -> result generator
}.

(** ** Pydantic models and response dictionaries *)

Record Author : Type := {
  name : string;
  affiliation : option string;
  scholar_id : option string;
  citedby : option Z;
  interests : option (list string)
}.

Record CitationResult : Type := {
  citing_papers : list Publication;
  total_citations : Z;
  original_title : string
}.

(** The dictionary returned by [root]. *)
Record Health : Type := {
  status : string;
  message : string;
  endpoints : list string
}.

(** The dictionary returned by [search_author]. *)
Record AuthorsResponse : Type := {
  found_authors : list Author;
  found_query : string
}.

(** The dictionary [raw_data] of [get_publication_details]. *)
Record RawData : Type := {
  raw_bib : value;
  raw_num_citations : value;
  raw_citedby_url : value;
  raw_pub_url : value
}.

(** The dictionary returned by [get_publication_details]. *)
Record DetailsResponse : Type := {
  publication : Publication;
  raw_data : RawData
}.

(** ** GET / *)
Definition root : Health :=
  {| status := "ok";
     message := "Scholarly API is running";
     endpoints := ["/search/publications"; "/search/author"; "/citations";
                   "/similar"; "/bibtex"] |}.

Section WithLibraries.
Variable E : externals.
Variable L : scholar.

(** ** GET /search/author *)

(** Lines 195-201: [Author(name=author.get('name', 'Unknown'), ...)] *)
Definition Author_of (author : value) : result Author :=
  name_ ← get author "name" (VStr "Unknown");
  affiliation_ ← get author "affiliation" (VStr "");
  scholar_id_ ← get author "scholar_id" (VStr "");
  citedby_ ← get author "citedby" (VInt 0);
  interests_ ← get author "interests" (VList []);
  n ← validate_str E name_;
  a ← validate_optional (validate_str E) affiliation_;
  s ← validate_optional (validate_str E) scholar_id_;
  c ← validate_optional (validate_int E) citedby_;
  i ← validate_optional (validate_list E) interests_;
  Ok {| name := n; affiliation := a; scholar_id := s; citedby := c;
        interests := i |}.

(** The loop of lines 192-201; [wanted] is [limit - i], as in
    [search_loop]. *)
Fixpoint author_loop (wanted i : nat) (search_query : generator)
  (authors_ : list Author) : result (list Author) :=
  match search_query i with
  | Stop => Ok authors_
  | Fail e => Raise e
  | Yield author =>
    match wanted with
    | O => Ok authors_
    | S wanted' =>
      a ← Author_of author;
      author_loop wanted' (S i) search_query (authors_ ++ [a])
    end
  end.

Definition search_author (name_ : string) (limit : nat)
  : result AuthorsResponse :=
  try_except
    (search_query ← scholarly_search_author L name_;
     authors_ ← author_loop limit 0 search_query [];
     Ok {| found_authors := authors_; found_query := name_ |})
    (fun e =>
       Raise (HTTPException 500 ("Author search failed: " +:+ exn_str E e))).

(** ** GET /citations *)

(** The loop of lines 233-236 is the loop of [search_publications]. *)
Definition get_citations (title_ : string) (limit : nat)
  : result CitationResult :=
  reraise_http E "Failed to get citations: "
    (search_query ← search_pubs E title_;
     paper0 ← first_paper search_query;
     paper ← (fill E paper0).1;
     citations_iterator ← scholarly_citedby L paper;
     citing_papers_ ← search_loop E limit 0 citations_iterator [];
     total_ ← get paper "num_citations"
                (VInt (Z.of_nat (List.length citing_papers_)));
     bib ← get paper "bib" (VDict ∅);
     title0 ← get bib "title" (VStr title_);
     total ← validate_int E total_;
     original ← validate_str E title0;
     Ok {| citing_papers := citing_papers_; total_citations := total;
           original_title := original |}).

(** ** GET /publication/details *)

Definition get_publication_details (title_ : string)
  : result DetailsResponse :=
  reraise_http E "Failed to get details: "
    (search_query ← search_pubs E title_;
     paper0 ← first_paper search_query;
     paper ← (fill E paper0).1;
     publication_ ← parse_publication E paper false;
     bib ← get paper "bib" (VDict ∅);
     num_citations ← get paper "num_citations" (VInt 0);
     citedby_url ← get paper "citedby_url" (VStr "");
     pub_url ← get paper "pub_url" (VStr "");
     Ok {| publication := publication_;
           raw_data := {| raw_bib := bib; raw_num_citations := num_citations;
                          raw_citedby_url := citedby_url;
                          raw_pub_url := pub_url |} |}).

End WithLibraries.

(** ** Notions the statements below use *)

(** [Author_of] returns [a] for the item. *)
Definition listed (E : externals) (item : value) (a : Author) : Prop :=
  Author_of E item = Ok a.

(** A record of a scholar profile. *)
Definition profile (n : string) (cites : value) : value :=
  VDict (<["name" := VStr n]> {["citedby" := cites]}).

(** Three profiles, the third with a citation count that is no number. *)
Definition roster : list value :=
  [profile "Ann Lee" (VInt 12); profile "Bob Ray" (VInt 3);
   profile "Cy Dow" (VStr "many")].

(** A scholar with those three profiles and with one citing paper for every
    paper. *)
Definition registry : scholar :=
  {| scholarly_search_author := fun _ => Ok (yields roster Stop);
     scholarly_citedby := fun _ => Ok (yields [paper "Graph Kernels"] Stop) |}.

(** The answer of [get_citations] on [library] and [registry]. *)
Definition one_citation : CitationResult :=
  {| citing_papers :=
       [{| title := "Graph Kernels"; authors := [""]; year := None;
           abstract := Some ""; venue := Some ""; citations := Some 0;
           url := Some ""; bibtex := Some ""; scholar_url := Some "" |}];
     total_citations := 1;
     original_title := "Deep Learning" |}.

End Lookups.

(** * Notions for the statements about strings and OCR items *)

Module Notions.
Import Py.

(** No character of the string is whitespace. *)
Fixpoint no_space (s : string) : bool :=
  match s with
  | EmptyString => true
  | String c s' => negb (isspace c) && no_space s'
  end.

(** A word: a non-empty string without whitespace. *)
Definition word (w : string) : Prop := w <> "" /\ no_space w = true.

(** [item.get('type', 'text')], when the item is a dictionary. *)
Definition item_type (item : value) : value :=
  match item with
  | VDict d => default (VStr "text") (d !! "type")
  | _ => VNone
  end.

(** The number of items of the structure pass whose type is [t]. *)
Definition count_type (t : string) (items : list value) : nat :=
  List.length (List.filter (fun item => eq_str (item_type item) t) items).

(** The texts of all results of the engine, in order. *)
Definition all_texts (ocr_result : list Ocr.ocr_res) : list value :=
  concat ((fun res => default [] (Ocr.rec_texts res)) <$> ocr_result).

(** The document of a text pass that found nothing, and the same document
    with one empty table. *)
Definition no_text : Ocr.document :=
  {| Ocr.success := true; Ocr.fallback := None; Ocr.message := None;
     Ocr.text_blocks := []; Ocr.tables := []; Ocr.figures := [];
     Ocr.formulas := []; Ocr.raw_text := ""; Ocr.use_client_ocr := None |}.

Definition one_table : Ocr.document :=
  {| Ocr.success := true; Ocr.fallback := None; Ocr.message := None;
     Ocr.text_blocks := [];
     Ocr.tables := [{| Ocr.table_bbox := VList []; Ocr.html := VStr "";
                       Ocr.cells := VList [] |}];
     Ocr.figures := []; Ocr.formulas := []; Ocr.raw_text := "";
     Ocr.use_client_ocr := None |}.

(** Two items of a structure pass: a table and a page header. *)
Definition table_and_header : list value :=
  [VDict {["type" := VStr "table"]}; VDict {["type" := VStr "header"]}].

End Notions.

(** * Properties of the Scholarly adapter *)

Module ScholarlyProofs.
Import Py Scholarly.

(** ** parse_publication *)

(** [pub.get('bib', {})] on a record whose bib is a mapping. *)
Lemma get_bib pub b :
  bib_of pub = Some b -> get pub "bib" (VDict ∅) = Ok (VDict b).
Proof.
  destruct pub as [| | | | |d]; simpl; try discriminate.
  destruct (d !! "bib") as [[| | | | |b']|] eqn:Hb; simpl; try discriminate.
  - intros [= ->]. reflexivity.
  - intros [= <-]. reflexivity.
Qed.

(** On such a record the [except] handler returns the minimal
    Publication with the salvaged title. *)
Lemma recover_ok E pub b :
  bib_of pub = Some b -> recover E pub = Ok (minimal (salvaged_title E b)).
Proof.
  intros Hb. unfold recover. rewrite (get_bib _ _ Hb). reflexivity.
Qed.

(** [parse_publication] returns whenever the record in scope has a bib
    mapping. *)
Lemma parse_publication_total E pub fill_details :
  is_Some (bib_of (in_scope E pub fill_details)) ->
  exists p, parse_publication E pub fill_details = Ok p.
Proof.
  intros [b Hb]. unfold parse_publication, try_except.
  destruct (fill_raised E pub fill_details).
  - rewrite (recover_ok _ _ _ Hb). eauto.
  - destruct (normalize E _) as [p|e]; [eauto|].
    rewrite (recover_ok _ _ _ Hb). eauto.
Qed.

(** The constructor call that the [try] body ends with. *)
Lemma normalize_record E d b :
  bib_of (VDict d) = Some b ->
  normalize E (VDict d) =
  Publication_full E
    (default (VStr "Unknown Title") (b !! "title"))
    (authors_arg b) (year_arg b)
    (default (VStr "") (b !! "abstract"))
    (venue_of b)
    (default (VInt 0) (d !! "num_citations"))
    (default (VStr "") (d !! "pub_url"))
    (default (VStr "") (d !! "bibtex"))
    (default (VStr "") (d !! "url_scholarbib")).
Proof.
  intros Hb. unfold normalize. rewrite (get_bib _ _ Hb). reflexivity.
Qed.

(** A Publication that was built holds the validated title, authors and
    year. *)
Lemma Publication_full_fields E t a y ab ve ci u bt su p :
  Publication_full E t a y ab ve ci u bt su = Ok p ->
  validate_str E t = Ok (title p) /\
  validate_list E a = Ok (authors p) /\
  validate_optional (validate_int E) y = Ok (year p).
Proof.
  unfold Publication_full.
  destruct (validate_str E t) as [t'|]; [|discriminate].
  destruct (validate_list E a) as [a'|]; [|discriminate].
  destruct (validate_optional (validate_int E) y) as [y'|]; [|discriminate].
  simpl.
  repeat match goal with
  | |- context [validate_optional ?f ?v] =>
      destruct (validate_optional f v); simpl; [|discriminate]
  end.
  intros [= <-]. auto.
Qed.

(** A year that is a string [int] rejects is bound to [None], or stays the
    empty string. *)
Lemma year_arg_non_numeric b s :
  year_field b = VStr s -> int_of_str s = None ->
  year_arg b = VNone \/ year_arg b = VStr "".
Proof.
  intros Hy Hs. unfold year_arg. rewrite Hy. simpl. rewrite Hs.
  destruct (String.eqb_spec s ""); subst; simpl; auto.
Qed.

Lemma bib_of_dict r b : bib_of r = Some b -> exists d, r = VDict d.
Proof. destruct r; simpl; try discriminate. eauto. Qed.

(** [''.split(' and ')] is [['']]: without an author field the list holds
    one empty name. *)
Lemma authors_arg_missing b :
  b !! "author" = None -> authors_arg b = VList [VStr ""].
Proof. intros H. unfold authors_arg. rewrite H. reflexivity. Qed.

(** A list of strings is a valid [List[str]]. *)
Lemma validate_list_strings E l :
  validate_list E (VList (VStr <$> l)) = Ok l.
Proof.
  unfold validate_list. simpl.
  induction l as [|s l IH]; [reflexivity|].
  cbn [fmap list_fmap mapM mbind result_bind validate_str] in *.
  rewrite IH. reflexivity.
Qed.

(** Whenever the [try] body returns for a record without an author field,
    the authors are one empty name. *)
Lemma normalize_missing_author E r b p :
  bib_of r = Some b -> b !! "author" = None ->
  normalize E r = Ok p -> authors p = [""].
Proof.
  intros Hb Ha Hn. destruct (bib_of_dict _ _ Hb) as [d ->].
  rewrite (normalize_record _ _ _ Hb) in Hn.
  apply Publication_full_fields in Hn as (_ & Hl & _).
  rewrite (authors_arg_missing _ Ha) in Hl.
  change (VList [VStr ""]) with (VList (VStr <$> [""])) in Hl.
  rewrite validate_list_strings in Hl. congruence.
Qed.

(** C1. The record [{'bib': {'title': 'T'}}] has no author field; for
    every pydantic and every scholarly library [parse_publication] returns
    a Publication whose authors are [['']], one empty name, and not the
    empty list. *)
Theorem missing_author_gives_one_empty_name E :
  parse_publication E
    (VDict {["bib" := VDict {["title" := VStr "T"]}]}) false
  = Ok {| title := "T"; authors := [""]; year := None;
          abstract := Some ""; venue := Some ""; citations := Some 0%Z;
          url := Some ""; bibtex := Some ""; scholar_url := Some "" |}.
Proof.
  unfold parse_publication, fill_raised, in_scope, try_except.
  rewrite (normalize_record E _ {["title" := VStr "T"]}) by reflexivity.
  reflexivity.
Qed.

(** C7. Let [b] be the bib mapping of the record [parse_publication]
    works on ([pub] itself without detail expansion) and let
    [bib.get('pub_year') or bib.get('year')] be a string [s] that [int]
    rejects.  Then [parse_publication] returns a Publication and its year is
    absent.  The empty string is the one such value that reaches pydantic;
    the hypothesis on [lax_int] says that pydantic does not read it as an
    integer. *)
Theorem non_numeric_year_is_absent E pub fill_details b s :
  lax_int E (VStr "") = None ->
  bib_of (in_scope E pub fill_details) = Some b ->
  year_field b = VStr s ->
  int_of_str s = None ->
  exists p, parse_publication E pub fill_details = Ok p /\ year p = None.
Proof.
  intros Hlax Hb Hy Hs. unfold parse_publication, try_except.
  destruct (fill_raised E pub fill_details).
  { rewrite (recover_ok _ _ _ Hb). eexists. split; reflexivity. }
  destruct (bib_of_dict _ _ Hb) as [d Hd]. rewrite Hd in *.
  destruct (normalize E (VDict d)) as [p|e] eqn:Hn.
  - exists p. split; [reflexivity|].
    rewrite (normalize_record _ _ _ Hb) in Hn.
    apply Publication_full_fields in Hn as (_ & _ & Hyear).
    destruct (year_arg_non_numeric _ _ Hy Hs) as [Hv|Hv]; rewrite Hv in Hyear.
    + simpl in Hyear. congruence.
    + simpl in Hyear. rewrite Hlax in Hyear. discriminate.
  - rewrite (recover_ok _ _ _ Hb). eexists. split; reflexivity.
Qed.

(** C7 at the record [{'bib': {'pub_year': 'n.d.'}}]. *)
Lemma non_numeric_year_witness :
  exists p,
    parse_publication offline
      (VDict {["bib" := VDict {["pub_year" := VStr "n.d."]}]}) false = Ok p
    /\ year p = None.
Proof.
  apply (non_numeric_year_is_absent offline _ false
           {["pub_year" := VStr "n.d."]} "n.d.");
    reflexivity.
Defined.

(** C3. The record [{'bib': None}] escapes the [except] handler, for every
    pydantic and every scholarly library: the [try] body raises
    [AttributeError] on [bib.get], the handler evaluates
    [pub.get('bib', {}).get(...)] again to salvage a title, and that second
    [AttributeError] reaches the caller.  [parse_publication] is not total
    and the error is not converted into a minimal Publication. *)
Theorem bib_none_escapes E :
  parse_publication E (VDict {["bib" := VNone]}) false
  = Raise AttributeError.
Proof. reflexivity. Qed.

(** X22. When the bib entry of the record in scope ([pub], or what detail
    expansion returned or left of it) is absent or a mapping,
    [parse_publication] returns a Publication; and when an exception was
    raised, by [fill] or by the rest of the [try] body, that Publication is
    the minimal one: the salvaged title of the record, no authors, no year,
    no other field. *)
Theorem parse_publication_total_on_records E pub fill_details b :
  bib_of (in_scope E pub fill_details) = Some b ->
  exists p, parse_publication E pub fill_details = Ok p /\
    (failed E pub fill_details = true -> p = minimal (salvaged_title E b)).
Proof.
  intros Hb. unfold parse_publication, failed, try_except.
  destruct (fill_raised E pub fill_details); simpl.
  - rewrite (recover_ok _ _ _ Hb). eexists. split; reflexivity.
  - destruct (normalize E _) as [p|e]; simpl.
    + exists p. split; [reflexivity|discriminate].
    + rewrite (recover_ok _ _ _ Hb). eexists. split; reflexivity.
Qed.

(** X22 at [{'num_citations': 'many'}], which pydantic refuses. *)
Lemma total_on_records_witness :
  exists p,
    parse_publication offline
      (VDict {["num_citations" := VStr "many"]}) false = Ok p /\
    (failed offline (VDict {["num_citations" := VStr "many"]}) false = true ->
     p = minimal (salvaged_title offline ∅)).
Proof.
  apply (parse_publication_total_on_records offline
           (VDict {["num_citations" := VStr "many"]}) false ∅).
  reflexivity.
Defined.

(** C10. For a record whose bib mapping has no title: when
    [parse_publication] answers from its [except] handler the title is
    ['Unknown'], when it answers from the [try] body the title is
    ['Unknown Title'], and the two defaults differ. *)
Theorem default_titles_differ E pub fill_details b p :
  bib_of (in_scope E pub fill_details) = Some b ->
  b !! "title" = None ->
  parse_publication E pub fill_details = Ok p ->
  (failed E pub fill_details = true -> title p = "Unknown") /\
  (failed E pub fill_details = false -> title p = "Unknown Title") /\
  "Unknown" <> "Unknown Title".
Proof.
  intros Hb Ht. unfold parse_publication, failed, try_except.
  assert (recover E (in_scope E pub fill_details) = Ok p ->
          title p = "Unknown") as Hrec.
  { rewrite (recover_ok _ _ _ Hb). intros [= <-].
    unfold salvaged_title. rewrite Ht. reflexivity. }
  destruct (fill_raised E pub fill_details); simpl.
  { intros Hp. split; [auto|]. split; discriminate. }
  destruct (bib_of_dict _ _ Hb) as [d Hd]. rewrite Hd in *.
  destruct (normalize E (VDict d)) as [p'|e] eqn:Hn; simpl.
  - intros [= ->]. split; [discriminate|]. split; [|discriminate].
    intros _. rewrite (normalize_record _ _ _ Hb), Ht in Hn.
    apply Publication_full_fields in Hn as (Htitle & _).
    simpl in Htitle. congruence.
  - intros Hp. split; [auto|]. split; discriminate.
Qed.

(** C10 on both paths: [{'num_citations': 'many'}] is answered by the
    handler, [{}] by the [try] body. *)
Lemma default_titles_witness :
  (exists p,
     parse_publication offline
       (VDict {["num_citations" := VStr "many"]}) false = Ok p
     /\ title p = "Unknown") /\
  (exists p,
     parse_publication offline (VDict ∅) false = Ok p
     /\ title p = "Unknown Title").
Proof.
  split.
  - exists (minimal "Unknown"). split; [reflexivity|].
    destruct (default_titles_differ offline
                (VDict {["num_citations" := VStr "many"]}) false ∅
                (minimal "Unknown")) as (Hrecovered & _);
      [reflexivity..|].
    apply Hrecovered. reflexivity.
  - set (p := {| title := "Unknown Title"; authors := [""]; year := None;
                  abstract := Some ""; venue := Some "";
                  citations := Some 0%Z; url := Some ""; bibtex := Some "";
                  scholar_url := Some "" |}).
    exists p. split; [reflexivity|].
    destruct (default_titles_differ offline (VDict ∅) false ∅ p)
      as (_ & Hnormal & _); [reflexivity..|].
    apply Hnormal. reflexivity.
Defined.

(** ** Reading a generator *)

Lemma yielded_from_length g : forall n i,
  (List.length (yielded_from g i n) <= n)%nat.
Proof.
  induction n as [|n IH]; intros i; simpl; [lia|].
  destruct (g i); simpl; [|lia..]. specialize (IH (S i)). lia.
Qed.

(** One more pull, spelled out. *)
Lemma quiet_from_S g i n :
  quiet_from g i (S n) =
  match g i with
  | Yield _ => quiet_from g (S i) n
  | Stop => true
  | Fail _ => false
  end.
Proof. reflexivity. Qed.

(** ** The search loop *)

(** The loop appends the Publications of the items that up to [wanted]
    pulls yield. *)
Lemma search_loop_spec E stream : forall wanted i acc ps,
  search_loop E wanted i stream acc = Ok ps ->
  exists qs, ps = (acc ++ qs)%list /\
             Forall2 (parsed E) (yielded_from stream i wanted) qs.
Proof.
  induction wanted as [|n IH]; intros i acc ps; simpl.
  - intros Hloop. exists []. split; [|constructor].
    rewrite app_nil_r. destruct (stream i); congruence.
  - destruct (stream i) as [pub| |e]; [| |discriminate].
    + destruct (parse_publication E pub false) as [p|e] eqn:Hp;
        simpl; [|discriminate].
      intros Hloop. apply IH in Hloop as (qs & -> & Hqs).
      exists (p :: qs). rewrite <- app_assoc. split; [reflexivity|].
      constructor; assumption.
    + intros [= <-]. exists []. rewrite app_nil_r. split; constructor.
Qed.







(** When the pull that follows the wanted items raises, so does the loop. *)
Lemma search_loop_trailing E stream e : forall wanted i acc,
  List.length (yielded_from stream i wanted) = wanted ->
  Forall (fun item => raises (parse_publication E item false) = false)
    (yielded_from stream i wanted) ->
  stream (i + wanted)%nat = Fail e ->
  search_loop E wanted i stream acc = Raise e.
Proof.
  induction wanted as [|n IH]; intros i acc; simpl.
  - intros _ _. rewrite Nat.add_0_r. intros ->. reflexivity.
  - destruct (stream i) as [pub| |e']; simpl; [|discriminate..].
    intros [= Hlen] [Hpub Hrest]%Forall_cons Hfail.
    destruct (parse_publication E pub false) as [p|]; [|discriminate].
    simpl. apply IH; [assumption..|].
    rewrite <- Hfail. f_equal. lia.
Qed.

(** X23. The loop pulls one item more than the endpoint returns.  When the
    stream yields [limit] items that [parse_publication] accepts and raises
    on the pull after them, the items already collected are not returned:
    the endpoint raises HTTP 500 with the text of that exception. *)
Theorem failure_past_the_limit_is_500 E query_ limit stream e :
  search_pubs E query_ = Ok stream ->
  List.length (yielded limit stream) = limit ->
  Forall (fun item => raises (parse_publication E item false) = false)
    (yielded limit stream) ->
  stream limit = Fail e ->
  search_publications E query_ limit
  = Raise (HTTPException 500 ("Search failed: " +:+ exn_str E e)).
Proof.
  intros Hs Hlen Hok Hfail. unfold search_publications. rewrite Hs. simpl.
  rewrite (search_loop_trailing E stream e limit 0 [] Hlen Hok Hfail).
  reflexivity.
Qed.

(** X23 on [blocked], whose stream breaks after its first paper, for
    [limit = 1]. *)
Lemma failure_past_the_limit_witness :
  search_publications blocked "machine learning chemistry" 1
  = Raise (HTTPException 500 ("Search failed: " +:+ "error")).
Proof.
  apply (failure_past_the_limit_is_500 blocked "machine learning chemistry" 1
           (yields [paper "Deep Learning"] (Fail (LibraryError "blocked")))
           (LibraryError "blocked"));
    [reflexivity|reflexivity|repeat constructor|reflexivity].
Defined.

(** ** The similarity loop *)

Lemma entry_title_get e t :
  entry_title e = Some t ->
  exists b, bib_of e = Some b /\ get e "bib" (VDict ∅) = Ok (VDict b) /\
            get (VDict b) "title" (VStr "") = Ok (VStr t).
Proof.
  unfold entry_title. destruct (bib_of e) as [b|] eqn:Hb; [|discriminate].
  intros Ht. exists b. split; [reflexivity|]. split; [exact (get_bib _ _ Hb)|].
  simpl. destruct (default (VStr "") (b !! "title")); try discriminate.
  congruence.
Qed.

(** An item without a string title makes the title test raise. *)
Lemma entry_title_None_raises e :
  entry_title e = None ->
  (b ← get e "bib" (VDict ∅); t ← get b "title" (VStr ""); str_lower t)
  = Raise AttributeError.
Proof.
  unfold entry_title, bib_of. destruct e as [| | | | |d]; try reflexivity.
  simpl. destruct (d !! "bib") as [[| | | | |b]|]; simpl; try reflexivity.
  - destruct (default (VStr "") (b !! "title")); simpl;
      try reflexivity; discriminate.
  - rewrite lookup_empty. discriminate.
Qed.

(** One turn of the loop on an item, below the bound. *)
Lemma similar_loop_step E wanted original i stream pub acc :
  stream i = Yield pub ->
  similar_loop E (S wanted) original i stream acc =
  match entry_title pub with
  | None => Raise AttributeError
  | Some _ =>
    if same_title original pub
    then similar_loop E wanted original (S i) stream acc
    else p ← parse_publication E pub false;
         similar_loop E wanted original (S i) stream (acc ++ [p])
  end.
Proof.
  intros Hi. simpl. rewrite Hi.
  unfold same_title.
  destruct (entry_title pub) as [t|] eqn:Ht.
  - destruct (entry_title_get _ _ Ht) as (b & _ & -> & Hg). simpl.
    simpl in Hg. injection Hg as ->. simpl.
    destruct (String.eqb (lower t) (lower original)); reflexivity.
  - pose proof (entry_title_None_raises _ Ht) as Hr.
    destruct (get pub "bib" (VDict ∅)) as [b|]; simpl in *; [|congruence].
    destruct (get b "title" (VStr "")) as [t|]; simpl in *; [|congruence].
    destruct (str_lower t); simpl in *; congruence.
Qed.

(** The loop appends the Publications of those items, among the ones up to
    [wanted] pulls yield, whose title is not the original one. *)
Lemma similar_loop_spec E original stream : forall wanted i acc ps,
  similar_loop E wanted original i stream acc = Ok ps ->
  exists qs, ps = (acc ++ qs)%list /\
    Forall2 (parsed E)
      (List.filter (fun e => negb (same_title original e))
                   (yielded_from stream i wanted)) qs.
Proof.
  induction wanted as [|n IH]; intros i acc ps.
  - simpl. intros Hloop. exists []. split; [|constructor].
    rewrite app_nil_r. destruct (stream i); congruence.
  - destruct (stream i) as [pub| |e] eqn:Hi.
    + rewrite (similar_loop_step _ _ _ _ _ _ _ Hi).
      cbn [yielded_from]. rewrite Hi. simpl.
      destruct (entry_title pub); [|discriminate].
      destruct (same_title original pub); simpl.
      * apply IH.
      * destruct (parse_publication E pub false) as [p|] eqn:Hp;
          simpl; [|discriminate].
        intros Hloop. apply IH in Hloop as (qs & -> & Hqs).
        exists (p :: qs). rewrite <- app_assoc.
        split; [reflexivity|]. constructor; assumption.
    + simpl. rewrite Hi. intros [= <-]. exists [].
      rewrite app_nil_r. split; constructor.
    + simpl. rewrite Hi. discriminate.
Qed.

(** The loop returns when none of its pulls raises and every item has a
    string title. *)
Lemma similar_loop_total E original stream : forall wanted i acc,
  quiet_from stream i (S wanted) = true ->
  Forall (fun e => is_Some (entry_title e)) (yielded_from stream i wanted) ->
  exists ps, similar_loop E wanted original i stream acc = Ok ps.
Proof.
  induction wanted as [|n IH]; intros i acc.
  - simpl. destruct (stream i); [eauto|eauto|discriminate].
  - rewrite quiet_from_S. destruct (stream i) as [pub| |e] eqn:Hi.
    + rewrite (similar_loop_step _ _ _ _ _ _ _ Hi).
      cbn [yielded_from]. rewrite Hi.
      intros Hq [[t Ht] Hrest]%Forall_cons. rewrite Ht.
      destruct (same_title original pub); [apply IH; assumption|].
      destruct (entry_title_get _ _ Ht) as (b & Hb & _).
      destruct (parse_publication_total E pub false) as [p ->];
        [simpl; eauto|].
      simpl. apply IH; assumption.
    + intros _ _. simpl. rewrite Hi. eauto.
    + discriminate.
Qed.

(** C6. Let the first search yield [paper] first, let [original] be its
    title, and let the keyword search return [stream].  Whenever the
    endpoint answers, [similar_papers] is the first [limit] of the
    Publications of those items, among the first [limit + 1] the stream
    yields, whose title is not [original] up to case: no item with the
    original title is among them, nothing past item [limit + 1] is looked
    at, and at most [limit] are returned.  And the endpoint does answer when
    none of the pulls the loop makes (the first [limit + 2]) raises and those
    [limit + 1] items are records with a string title. *)
Theorem similar_papers_exclude_original
  E title_ limit search_query paper b original stream :
  search_pubs E title_ = Ok search_query ->
  first_paper search_query = Ok paper ->
  bib_of paper = Some b ->
  default (VStr title_) (b !! "title") = VStr original ->
  search_pubs E (join " " (take 5 (split_ws original))) = Ok stream ->
  (forall r, get_similar_papers E title_ limit = Ok r ->
     exists ps,
       Forall2 (parsed E)
         (List.filter (fun e => negb (same_title original e))
                      (yielded (limit + 1) stream)) ps /\
       similar_papers r = take limit ps /\
       (List.length (similar_papers r) <= limit)%nat /\
       original_title r = original) /\
  (quiet (S (limit + 1)) stream = true ->
   Forall (fun e => is_Some (entry_title e)) (yielded (limit + 1) stream) ->
   exists r, get_similar_papers E title_ limit = Ok r).
Proof.
  intros Hs Hf Hb Ht Hk. unfold get_similar_papers, reraise_http, try_except.
  rewrite Hs. simpl. rewrite Hf. simpl. rewrite (get_bib _ _ Hb). simpl.
  rewrite Ht. simpl. rewrite Hk. simpl. split.
  - intros r.
    destruct (similar_loop E (limit + 1) original 0 stream [])
      as [ps|e] eqn:Hl; simpl.
    + intros [= <-]. simpl.
      apply similar_loop_spec in Hl as (qs & -> & Hqs).
      exists qs. simpl.
      rewrite length_take. repeat split; [assumption|lia].
    + destruct e; discriminate.
  - intros Hq Hwf.
    destruct (similar_loop_total E original stream (limit + 1) 0 [] Hq Hwf)
      as [ps ->].
    simpl. eauto.
Qed.

(** C6 for [limit = 1]: of the first two results, the original paper is
    dropped. *)
Lemma exclude_original_witness :
  (forall r, get_similar_papers library "deep learning" 1 = Ok r ->
     exists ps,
       Forall2 (parsed library)
         (List.filter (fun e => negb (same_title "Deep Learning" e))
            (yielded (1 + 1) (yields shelf Stop))) ps /\
       similar_papers r = take 1 ps /\
       (List.length (similar_papers r) <= 1)%nat /\
       original_title r = "Deep Learning") /\
  (quiet (S (1 + 1)) (yields shelf Stop) = true ->
   Forall (fun e => is_Some (entry_title e))
     (yielded (1 + 1) (yields shelf Stop)) ->
   exists r, get_similar_papers library "deep learning" 1 = Ok r).
Proof.
  apply (similar_papers_exclude_original library "deep learning" 1
           (yields shelf Stop)
           (paper "Deep Learning") {["title" := VStr "Deep Learning"]}
           "Deep Learning" (yields shelf Stop));
    reflexivity.
Defined.

(** ** BibTeX synthesis *)

Lemma append_assoc (s1 s2 s3 : string) :
  (s1 +:+ s2) +:+ s3 = s1 +:+ s2 +:+ s3.
Proof.
  induction s1 as [|c s1 IH]; [reflexivity|].
  change (String c ((s1 +:+ s2) +:+ s3) = String c (s1 +:+ s2 +:+ s3)).
  f_equal. exact IH.
Qed.

(** The entry type the code computes is the one the specification words. *)
Lemma entry_type_of_spec b : entry_type_of (VDict b) = Ok (spec_entry_type b).
Proof.
  unfold entry_type_of, spec_entry_type. simpl.
  destruct (b !! "booktitle") as [v|] eqn:Hbt.
  - rewrite !bool_decide_eq_true_2 by eauto. reflexivity.
  - rewrite (bool_decide_eq_false_2 (is_Some None)) by (intros [? [=]]).
    destruct (b !! "journal") as [j|] eqn:Hj.
    + rewrite bool_decide_eq_true_2 by eauto.
      rewrite bool_decide_eq_false_2 by (intros [[=] _]). reflexivity.
    + rewrite (bool_decide_eq_false_2 (is_Some None)) by (intros [? [=]]).
      destruct (b !! "venue") as [v|] eqn:Hv.
      * rewrite bool_decide_eq_true_2 by eauto.
        rewrite bool_decide_eq_false_2 by (intros [_ [=]]). reflexivity.
      * rewrite (bool_decide_eq_false_2 (is_Some None)) by (intros [? [=]]).
        rewrite bool_decide_eq_true_2 by auto. reflexivity.
Qed.

Lemma spec_entry_type_cases b :
  (is_Some (b !! "booktitle") /\ spec_entry_type b = "inproceedings") \/
  (b !! "booktitle" = None /\ spec_entry_type b <> "inproceedings").
Proof.
  unfold spec_entry_type. destruct (b !! "booktitle") as [v|].
  - left. rewrite bool_decide_eq_true_2 by eauto. eauto.
  - right. rewrite bool_decide_eq_false_2 by (intros [? [=]]).
    split; [reflexivity|]. case_bool_decide; discriminate.
Qed.

(** C5. For every bib mapping [b] the entry type is ['inproceedings'] when
    [b] has a booktitle, else ['misc'] when it has neither journal nor
    venue, else ['article'] ([spec_entry_type]); it is ['inproceedings']
    exactly when [b] has a booktitle; and every synthesized entry is the
    header with that type, the author, title and year lines, and then the
    venue value, when there is one, on a [booktitle] line when the type is
    ['inproceedings'] and on a [journal] line otherwise. *)
Theorem synthesized_entry_type E b :
  entry_type_of (VDict b) = Ok (spec_entry_type b) /\
  (spec_entry_type b = "inproceedings" <-> is_Some (b !! "booktitle")) /\
  forall entry t, synthesize E (VDict b) = Ok (entry, t) ->
    exists key front,
      entry = "@" +:+ spec_entry_type b +:+ "{" +:+ key +:+ "," +:+ nl
              +:+ front
              +:+ (if truthy (venue_of b)
                   then (if bool_decide (is_Some (b !! "booktitle"))
                         then "  booktitle = {"
                         else "  journal = {")
                        +:+ str E (venue_of b) +:+ "}," +:+ nl
                   else "")
              +:+ "}" /\
      front = "  author = {"
              +:+ str E (default (VStr "Unknown") (b !! "author"))
              +:+ "}," +:+ nl
              +:+ "  title = {"
              +:+ str E (default (VStr "Unknown") (b !! "title"))
              +:+ "}," +:+ nl
              +:+ year_line E
                    (default (default (VStr "") (b !! "year"))
                             (b !! "pub_year")).
Proof.
  split; [apply entry_type_of_spec|].
  split.
  { destruct (spec_entry_type_cases b) as [[Hbt ->]|[Hbt Hne]].
    - tauto.
    - rewrite Hbt. split; [contradiction|]. intros [? [=]]. }
  intros entry t. unfold synthesize. rewrite entry_type_of_spec. simpl.
  destruct (cite_key_of E _ _) as [key|]; simpl; [|discriminate].
  intros [= <- <-]. exists key. eexists. split; [|reflexivity].
  fold (venue_of b). unfold venue_line.
  destruct (truthy (venue_of b)).
  - destruct (spec_entry_type_cases b) as [[Hbt ->]|[Hbt Hne]].
    + rewrite bool_decide_eq_true_2 by assumption. simpl.
      rewrite !append_assoc. reflexivity.
    + rewrite Hbt, (bool_decide_eq_false_2 (is_Some None))
        by (intros [? [=]]).
      apply String.eqb_neq in Hne. rewrite Hne.
      rewrite !append_assoc. reflexivity.
  - rewrite !append_assoc. reflexivity.
Qed.

(** C5 at a bib mapping with a booktitle. *)
Lemma synthesized_entry_witness :
  exists key front,
    "@inproceedings{lee2020," +:+ nl
    +:+ "  author = {Ann Lee and Bob Ray}," +:+ nl
    +:+ "  title = {Unknown}," +:+ nl
    +:+ "  year = {2020}," +:+ nl
    +:+ "  booktitle = {Proc. X}," +:+ nl
    +:+ "}"
    = "@" +:+ "inproceedings" +:+ "{" +:+ key +:+ "," +:+ nl
      +:+ front
      +:+ ("  booktitle = {" +:+ "Proc. X" +:+ "}," +:+ nl)
      +:+ "}" /\
    front = "  author = {" +:+ "Ann Lee and Bob Ray" +:+ "}," +:+ nl
            +:+ "  title = {" +:+ "Unknown" +:+ "}," +:+ nl
            +:+ ("  year = {" +:+ "2020" +:+ "}," +:+ nl).
Proof.
  exact (proj2 (proj2 (synthesized_entry_type offline
                  (<["booktitle" := VStr "Proc. X"]>
                     (<["author" := VStr "Ann Lee and Bob Ray"]>
                        {["pub_year" := VInt 2020]}))))
               ("@inproceedings{lee2020," +:+ nl
                +:+ "  author = {Ann Lee and Bob Ray}," +:+ nl
                +:+ "  title = {Unknown}," +:+ nl
                +:+ "  year = {2020}," +:+ nl
                +:+ "  booktitle = {Proc. X}," +:+ nl
                +:+ "}")
               (VStr "Unknown") eq_refl).
Defined.

Lemma Publication_full_venue E t a y ab ve ci u bt su p :
  Publication_full E t a y ab ve ci u bt su = Ok p ->
  validate_optional (validate_str E) ve = Ok (venue p).
Proof.
  unfold Publication_full.
  destruct (validate_str E t); [|discriminate].
  destruct (validate_list E a); [|discriminate].
  destruct (validate_optional (validate_int E) y); [|discriminate].
  simpl.
  destruct (validate_optional (validate_str E) ab); [|discriminate].
  destruct (validate_optional (validate_str E) ve); [|discriminate].
  simpl.
  repeat match goal with
  | |- context [validate_optional ?f ?v] =>
      destruct (validate_optional f v); simpl; [|discriminate]
  end.
  intros [= <-]. reflexivity.
Qed.

(** Venue precedence (section 8 of the specification): with both a
    journal and a non-empty venue, the Publication carries the venue. *)
Theorem venue_wins_over_journal E d b v j p :
  bib_of (VDict d) = Some b ->
  b !! "venue" = Some (VStr v) -> v <> "" ->
  b !! "journal" = Some j ->
  normalize E (VDict d) = Ok p ->
  venue p = Some v.
Proof.
  intros Hb Hv Hne Hj Hn.
  rewrite (normalize_record _ _ _ Hb) in Hn.
  apply Publication_full_venue in Hn.
  unfold venue_of, or_ in Hn. rewrite Hv in Hn. simpl in Hn.
  apply String.eqb_neq in Hne.
  repeat (rewrite Hne in Hn; simpl in Hn).
  congruence.
Qed.

Lemma venue_wins_witness :
  venue {| title := "Unknown Title"; authors := [""]; year := None;
           abstract := Some ""; venue := Some "NeurIPS";
           citations := Some 0%Z; url := Some ""; bibtex := Some "";
           scholar_url := Some "" |} = Some "NeurIPS".
Proof.
  apply (venue_wins_over_journal offline
           {["bib" := VDict (<["venue" := VStr "NeurIPS"]>
                               {["journal" := VStr "JMLR"]})]}
           (<["venue" := VStr "NeurIPS"]> {["journal" := VStr "JMLR"]})
           "NeurIPS" (VStr "JMLR"));
    [reflexivity|reflexivity|discriminate|reflexivity|reflexivity].
Defined.

Lemma bib_default d b :
  bib_of (VDict d) = Some b -> default (VDict ∅) (d !! "bib") = VDict b.
Proof.
  intros Hb. apply get_bib in Hb. simpl in Hb. congruence.
Qed.

(** When the expanded paper carries no bibtex string, the [bibtex] the
    endpoint returns is the entry [synthesize] writes for its bib mapping. *)
Theorem get_bibtex_synthesizes E title_ search_query paper0 d b r :
  search_pubs E title_ = Ok search_query ->
  first_paper search_query = Ok paper0 ->
  (fill E paper0).1 = Ok (VDict d) ->
  bib_of (VDict d) = Some b ->
  truthy (default (VStr "") (d !! "bibtex")) = false ->
  get_bibtex E title_ = Ok r ->
  exists entry t,
    synthesize E (VDict b) = Ok (entry, t) /\ bib_bibtex r = VStr entry.
Proof.
  intros Hs Hf Hfill Hb Hbt. unfold get_bibtex, reraise_http, try_except.
  rewrite Hs. simpl. rewrite Hf. simpl. rewrite Hfill. simpl.
  rewrite (bib_default _ _ Hb). simpl. rewrite Hbt.
  destruct (synthesize E (VDict b)) as [[entry t]|e]; simpl.
  - intros [= <-]. exists entry, t. split; reflexivity.
  - destruct e; discriminate.
Qed.

Lemma get_bibtex_witness :
  exists entry t,
    synthesize library (VDict {["title" := VStr "Deep Learning"]})
      = Ok (entry, t) /\
    bib_bibtex
      {| bib_title := VStr "Deep Learning";
         bib_bibtex := VStr ("@misc{unknown," +:+ nl
                             +:+ "  author = {Unknown}," +:+ nl
                             +:+ "  title = {Deep Learning}," +:+ nl
                             +:+ "}");
         bib_authors := VStr ""; bib_year := VStr "";
         bib_venue := VStr "" |} = VStr entry.
Proof.
  apply (get_bibtex_synthesizes library "deep learning"
           (yields shelf Stop)
           (paper "Deep Learning")
           {["bib" := VDict {["title" := VStr "Deep Learning"]}]}
           {["title" := VStr "Deep Learning"]});
    reflexivity.
Defined.

End ScholarlyProofs.

(** * Properties of the OCR extraction function *)

Module OcrProofs.
Import Py Ocr.

(** ** extract_type *)

Ltac io_unfold := unfold mbind, io_bind, lift; cbn [get].

(** Two bodies equal up to [extract_type] agree on every other key. *)
Lemma lookup_outside_extract_type (b1 b2 : gmap string value) k :
  delete "extract_type" b1 = delete "extract_type" b2 ->
  k <> "extract_type" -> b1 !! k = b2 !! k.
Proof.
  intros Hd Hk.
  rewrite <- (lookup_delete_ne b1 "extract_type" k) by congruence.
  rewrite <- (lookup_delete_ne b2 "extract_type" k) by congruence.
  rewrite Hd. reflexivity.
Qed.

(** [process_with_paddleocr] never reads its second argument. *)
Lemma process_ignores_extract_type P path x1 x2 :
  process_with_paddleocr P path x1 = process_with_paddleocr P path x2.
Proof. reflexivity. Qed.

(** The body of the [try] once the request body is parsed. *)
Lemma handle_parsed P (e b : gmap string value) σ :
  json_loads P (default (VStr "{}") (e !! "body")) = Ok (VDict b) ->
  handle P (VDict e) σ =
  (let image_data := default VNone (b !! "image") in
   let file_url := default VNone (b !! "file_url") in
   let extract_type := default (VStr "all") (b !! "extract_type") in
   if negb (truthy image_data) && negb (truthy file_url)
   then mret {| statusCode := 400; headers := cors_headers;
                body := ErrorBody "No image data or file URL provided" |}
   else
     match import_PaddleOCR P with
     | Some ImportError => mret (fallback_ocr_response (VDict b) cors_headers)
     | Some e => lift (Raise e)
     | None =>
       temp_path ← materialize P image_data file_url;
       io_finally
         (result_ ← process_with_paddleocr P temp_path extract_type;
          mret {| statusCode := 200; headers := cors_headers;
                  body := Document result_ |})
         (cleanup temp_path)
     end) σ.
Proof.
  intros Hj. unfold handle.
  io_unfold. rewrite Hj. reflexivity.
Qed.

(** C9. Two requests with the same method whose bodies parse to
    dictionaries that differ at most in [extract_type] get the same
    response, and leave the same files. *)
Theorem extract_type_is_ignored P (e1 e2 b1 b2 : gmap string value) σ :
  e1 !! "httpMethod" = e2 !! "httpMethod" ->
  json_loads P (default (VStr "{}") (e1 !! "body")) = Ok (VDict b1) ->
  json_loads P (default (VStr "{}") (e2 !! "body")) = Ok (VDict b2) ->
  delete "extract_type" b1 = delete "extract_type" b2 ->
  handler P (VDict e1) σ = handler P (VDict e2) σ.
Proof.
  intros Hm H1 H2 Hd. unfold handler.
  io_unfold. rewrite Hm.
  destruct (eq_str (default VNone (e2 !! "httpMethod")) "OPTIONS");
    [reflexivity|].
  unfold io_try.
  rewrite (handle_parsed _ _ _ _ H1), (handle_parsed _ _ _ _ H2).
  rewrite (lookup_outside_extract_type _ _ "image" Hd) by discriminate.
  rewrite (lookup_outside_extract_type _ _ "file_url" Hd) by discriminate.
  (* what is left differs in the argument process_with_paddleocr drops *)
  cbn zeta. destruct (negb _ && negb _); [reflexivity|].
  destruct (import_PaddleOCR P) as [err|]; [destruct err; reflexivity|].
  unfold mbind at 1 3, io_bind at 1 3.
  destruct (materialize P _ _ σ) as [[temp_path|err] σ1]; [|reflexivity].
  rewrite (process_ignores_extract_type P temp_path
             (default (VStr "all") (b1 !! "extract_type"))
             (default (VStr "all") (b2 !! "extract_type"))).
  reflexivity.
Qed.


(** C9 for the same image, asking once for text and once for tables. *)
Lemma extract_type_witness :
  handler (sample loads_image None) (request "POST" "image, text") ∅
  = handler (sample loads_image None) (request "POST" "image, table") ∅.
Proof.
  apply (extract_type_is_ignored (sample loads_image None) _ _
           (<["extract_type" := VStr "text"]> {["image" := VStr "aGk="]})
           (<["extract_type" := VStr "table"]> {["image" := VStr "aGk="]}));
    reflexivity.
Defined.

(** ** The fallback *)

Lemma handler_not_preflight P (e : gmap string value) σ :
  e !! "httpMethod" <> Some (VStr "OPTIONS") ->
  handler P (VDict e) σ =
  io_try (handle P (VDict e))
    (fun err => mret {| statusCode := 500; headers := cors_headers;
                        body := ErrorBody (exn_str P err) |}) σ.
Proof.
  intros Hm. unfold handler. io_unfold.
  destruct (e !! "httpMethod") as [[| | |m| |]|]; try reflexivity.
  simpl. destruct (String.eqb_spec m "OPTIONS") as [->|]; [|reflexivity].
  congruence.
Qed.

(** C4, amended.  For every request that is not a preflight ([httpMethod]
    is not ['OPTIONS']) and whose body supplies an [image] or a [file_url]:
    when the import of PaddleOCR raises [ImportError], the handler answers
    200 with a document in which [success] and [fallback] are true and the
    four detection lists are empty, and it touches no file. *)
Theorem fallback_when_ocr_missing P (e b : gmap string value) σ :
  e !! "httpMethod" <> Some (VStr "OPTIONS") ->
  json_loads P (default (VStr "{}") (e !! "body")) = Ok (VDict b) ->
  truthy (default VNone (b !! "image"))
  || truthy (default VNone (b !! "file_url")) = true ->
  import_PaddleOCR P = Some ImportError ->
  exists d,
    handler P (VDict e) σ =
      (Ok {| statusCode := 200; headers := cors_headers;
             body := Document d |}, σ) /\
    success d = true /\ fallback d = Some true /\
    text_blocks d = [] /\ tables d = [] /\ figures d = [] /\
    formulas d = [].
Proof.
  intros Hm Hj Hsrc Himp.
  rewrite (handler_not_preflight _ _ _ Hm). unfold io_try.
  rewrite (handle_parsed _ _ _ _ Hj). cbn zeta.
  rewrite <- negb_orb, Hsrc, Himp. simpl.
  eexists. split; [reflexivity|]. repeat split.
Qed.


(** C4 amended, for a request that names a file to fetch. *)
Lemma fallback_witness :
  exists d,
    handler (sample loads_url (Some ImportError))
      (request "POST" "file_url") ∅ =
      (Ok {| statusCode := 200; headers := cors_headers;
             body := Document d |}, ∅) /\
    success d = true /\ fallback d = Some true /\
    text_blocks d = [] /\ tables d = [] /\ figures d = [] /\
    formulas d = [].
Proof.
  apply (fallback_when_ocr_missing (sample loads_url (Some ImportError))
           _ {["file_url" := VStr "not-a-url"]});
    [discriminate|reflexivity..].
Defined.

(** C4, as stated, fails at a preflight: the request supplies an inline
    image, PaddleOCR cannot be imported, and the answer is 200 with an empty
    body, not the fallback document. *)
Lemma preflight_with_image_gets_empty_body :
  json_loads (sample loads_image (Some ImportError)) (VStr "image, text")
    = Ok (VDict (<["extract_type" := VStr "text"]>
                   {["image" := VStr "aGk="]})) /\
  import_PaddleOCR (sample loads_image (Some ImportError))
    = Some ImportError /\
  handler (sample loads_image (Some ImportError))
    (request "OPTIONS" "image, text") ∅
    = (Ok {| statusCode := 200; headers := cors_headers; body := NoBody |},
       ∅).
Proof. repeat split. Qed.

(** ** The temporary file *)

(** The [finally] block leaves no file at a non-empty [temp_path]. *)
Lemma cleanup_removes path σ :
  path <> "" -> exists σ', cleanup (VStr path) σ = (Ok (), σ') /\
                            σ' !! path = None.
Proof.
  intros Hp. unfold cleanup. simpl.
  destruct (String.eqb_spec path ""); [contradiction|]. simpl.
  unfold mbind, io_bind, exists_, unlink, mret, io_ret.
  destruct (σ !! path) as [c|] eqn:Hc.
  - rewrite bool_decide_eq_true_2 by eauto. rewrite Hc.
    eexists. split; [reflexivity|]. apply lookup_delete_eq.
  - rewrite bool_decide_eq_false_2 by (intros [? [=]]).
    eexists. split; [reflexivity|]. exact Hc.
Qed.

Lemma finally_removes {A} (m : io A) path σ :
  path <> "" ->
  (io_finally m (cleanup (VStr path)) σ).2 !! path = None.
Proof.
  intros Hp. unfold io_finally. destruct (m σ) as [r σ1].
  destruct (cleanup_removes path σ1 Hp) as (σ2 & -> & H2). exact H2.
Qed.

(** When [urlretrieve] raises, the handler answers 500 and the files are as
    [urlretrieve] left them: the [finally] block is never reached. *)
Lemma failed_fetch_keeps_the_file P (e b : gmap string value) σ name σ1 err σ2 :
  e !! "httpMethod" <> Some (VStr "OPTIONS") ->
  json_loads P (default (VStr "{}") (e !! "body")) = Ok (VDict b) ->
  truthy (default VNone (b !! "image")) = false ->
  truthy (default VNone (b !! "file_url")) = true ->
  import_PaddleOCR P = None ->
  NamedTemporaryFile P σ = (Ok name, σ1) ->
  urlretrieve P (default VNone (b !! "file_url")) name σ1 = (Raise err, σ2) ->
  handler P (VDict e) σ =
    (Ok {| statusCode := 500; headers := cors_headers;
           body := ErrorBody (exn_str P err) |}, σ2).
Proof.
  intros Hm Hj Hi Hu Himp Ht Hr.
  rewrite (handler_not_preflight _ _ _ Hm). unfold io_try.
  rewrite (handle_parsed _ _ _ _ Hj). cbn zeta.
  rewrite Hi, Hu, Himp. simpl.
  unfold materialize. rewrite Hi, Hu.
  unfold mbind, io_bind. rewrite Ht, Hr. reflexivity.
Qed.

(** C2. A request names a [file_url] that cannot be retrieved.
    [NamedTemporaryFile] creates [/tmp/tmp0.png], [urlretrieve] raises, the
    handler answers 500, and the file is still there when it returns. *)
Theorem url_fetch_failure_leaves_the_file :
  handler (sample loads_url None) (request "POST" "file_url") ∅
  = (Ok {| statusCode := 500; headers := cors_headers;
           body := ErrorBody "unknown url type: 'not-a-url'" |},
     {["/tmp/tmp0.png" := []]}).
Proof.
  apply (failed_fetch_keeps_the_file (sample loads_url None) _
           {["file_url" := VStr "not-a-url"]} ∅ "/tmp/tmp0.png"
           {["/tmp/tmp0.png" := []]} ValueError);
    [discriminate|reflexivity..].
Qed.


(** Once [temp_path] is bound (lines 65-76 completed), no file is left at
    it when the handler returns, whatever the OCR and structure passes do. *)
Theorem temp_file_removed_once_named P (e b : gmap string value) σ path σ1 :
  e !! "httpMethod" <> Some (VStr "OPTIONS") ->
  json_loads P (default (VStr "{}") (e !! "body")) = Ok (VDict b) ->
  truthy (default VNone (b !! "image"))
  || truthy (default VNone (b !! "file_url")) = true ->
  import_PaddleOCR P = None ->
  materialize P (default VNone (b !! "image"))
    (default VNone (b !! "file_url")) σ = (Ok (VStr path), σ1) ->
  path <> "" ->
  (handler P (VDict e) σ).2 !! path = None.
Proof.
  intros Hm Hj Hsrc Himp Hmat Hp.
  rewrite (handler_not_preflight _ _ _ Hm). unfold io_try.
  rewrite (handle_parsed _ _ _ _ Hj). cbn zeta.
  rewrite <- negb_orb, Hsrc, Himp. simpl.
  unfold mbind at 1. unfold io_bind at 1. rewrite Hmat.
  pose proof (finally_removes
    (process_with_paddleocr P (VStr path)
       (default (VStr "all") (b !! "extract_type")) ≫=
       (fun result_ => mret {| statusCode := 200; headers := cors_headers;
                               body := Document result_ |}))
    path σ1 Hp) as Hfin.
  destruct (io_finally _ _ σ1) as [[r|err] σ2]; exact Hfin.
Qed.

Lemma temp_file_removed_witness :
  (handler (sample loads_image None) (request "POST" "image, text") ∅).2
    !! "/tmp/tmp0.png" = None.
Proof.
  apply (temp_file_removed_once_named (sample loads_image None) _
           (<["extract_type" := VStr "text"]> {["image" := VStr "aGk="]})
           ∅ "/tmp/tmp0.png" {["/tmp/tmp0.png" := []]});
    [discriminate|reflexivity|reflexivity|reflexivity|reflexivity|discriminate].
Defined.

End OcrProofs.

(** * Properties of the string methods, as the adapter uses them *)

Module StringProofs.
Import Py Scholarly Notions.

Lemma append_nil_r (s : string) : s +:+ "" = s.
Proof.
  induction s as [|c s IH]; [reflexivity|].
  change (String c (s +:+ "") = String c s). f_equal. exact IH.
Qed.

Lemma append_cons c (s t : string) : String c s +:+ t = String c (s +:+ t).
Proof. reflexivity. Qed.

Lemma rev_app_append (s acc : string) :
  String.rev_app s acc = String.rev_app s "" +:+ acc.
Proof.
  revert acc. induction s as [|c s IH]; intros acc; [reflexivity|].
  simpl. rewrite (IH (String c acc)), (IH (String c "")).
  rewrite ScholarlyProofs.append_assoc. reflexivity.
Qed.

Lemma rev_cons c (s : string) :
  String.rev (String c s) = String.rev s +:+ String c "".
Proof. unfold String.rev. simpl. apply rev_app_append. Qed.

Lemma rev_append (s t : string) :
  String.rev (s +:+ t) = String.rev t +:+ String.rev s.
Proof.
  induction s as [|c s IH].
  - simpl. rewrite append_nil_r. reflexivity.
  - rewrite append_cons, !rev_cons, IH.
    apply ScholarlyProofs.append_assoc.
Qed.

Lemma rev_involutive (s : string) : String.rev (String.rev s) = s.
Proof.
  induction s as [|c s IH]; [reflexivity|].
  rewrite rev_cons, rev_append, IH. reflexivity.
Qed.

Lemma rev_nil_inv (s : string) : String.rev s = "" -> s = "".
Proof.
  intros H. rewrite <- (rev_involutive s), H. reflexivity.
Qed.

(** ** strip *)

Lemma lstrip_idempotent s : lstrip (lstrip s) = lstrip s.
Proof.
  induction s as [|c s IH]; [reflexivity|].
  simpl. destruct (isspace c) eqn:Hc; [exact IH|].
  simpl. rewrite Hc. reflexivity.
Qed.

Lemma lstrip_head s :
  lstrip s = "" \/ exists c t, lstrip s = String c t /\ isspace c = false.
Proof.
  induction s as [|c s IH]; [left; reflexivity|].
  simpl. destruct (isspace c) eqn:Hc; [exact IH|]. right. eauto.
Qed.

Lemma lstrip_keeps_last x c :
  isspace c = false ->
  exists y, lstrip (x +:+ String c "") = y +:+ String c "".
Proof.
  intros Hc. induction x as [|a x IH].
  - exists "". simpl. rewrite Hc. reflexivity.
  - rewrite append_cons. simpl. destruct (isspace a); [exact IH|].
    exists (String a x). reflexivity.
Qed.

Lemma rstrip_keeps_head c t :
  isspace c = false -> exists u, rstrip (String c t) = String c u.
Proof.
  intros Hc. unfold rstrip. rewrite rev_cons.
  destruct (lstrip_keeps_last (String.rev t) c Hc) as [y ->].
  rewrite rev_append. exists (String.rev y). reflexivity.
Qed.

Lemma rstrip_idempotent s : rstrip (rstrip s) = rstrip s.
Proof.
  unfold rstrip. rewrite rev_involutive, lstrip_idempotent. reflexivity.
Qed.

Lemma lstrip_strip s : lstrip (strip s) = strip s.
Proof.
  unfold strip. destruct (lstrip_head s) as [Hs|(c & t & Hs & Hc)]; rewrite Hs.
  - reflexivity.
  - destruct (rstrip_keeps_head c t Hc) as [u Hu]. rewrite Hu. simpl.
    rewrite Hc. reflexivity.
Qed.

Lemma rstrip_strip s : rstrip (strip s) = strip s.
Proof. unfold strip. apply rstrip_idempotent. Qed.

Lemma strip_idempotent s : strip (strip s) = strip s.
Proof.
  unfold strip at 1. rewrite lstrip_strip. apply rstrip_strip.
Qed.

(** ** split *)

Lemma split_go_not_nil sep s : forall skip cur, split_go sep skip cur s <> [].
Proof.
  induction s as [|c s IH]; intros skip cur; cbn [split_go]; [done|].
  destruct skip; [|apply IH].
  destruct (String.prefix sep (String c s)); [done|apply IH].
Qed.

(** ** Words *)

Lemma no_space_append s t :
  no_space (s +:+ t) = no_space s && no_space t.
Proof.
  induction s as [|c s IH]; [reflexivity|].
  rewrite append_cons. simpl. rewrite IH, andb_assoc. reflexivity.
Qed.

Lemma no_space_rev s : no_space (String.rev s) = no_space s.
Proof.
  induction s as [|c s IH]; [reflexivity|].
  rewrite rev_cons, no_space_append, IH. simpl.
  rewrite andb_true_r. apply andb_comm.
Qed.

Lemma rev_cons_not_nil c s : String.rev (String c s) <> "".
Proof. intros H. apply rev_nil_inv in H. discriminate. Qed.

Lemma split_ws_go_words s : forall cur,
  no_space cur = true -> Forall word (split_ws_go cur s).
Proof.
  induction s as [|c s IH]; intros cur Hcur; simpl.
  - destruct cur as [|a cur]; [constructor|].
    constructor; [|constructor]. split; [apply rev_cons_not_nil|].
    rewrite no_space_rev. exact Hcur.
  - destruct (isspace c) eqn:Hc.
    + destruct cur as [|a cur]; [apply IH; reflexivity|].
      constructor; [|apply IH; reflexivity].
      split; [apply rev_cons_not_nil|]. rewrite no_space_rev. exact Hcur.
    + apply IH. simpl. rewrite Hc, Hcur. reflexivity.
Qed.

Lemma split_ws_words s : Forall word (split_ws s).
Proof. apply split_ws_go_words. reflexivity. Qed.

Lemma split_ws_go_through w : forall cur rest,
  no_space w = true ->
  split_ws_go cur (w +:+ rest) = split_ws_go (String.rev_app w cur) rest.
Proof.
  induction w as [|c w IH]; intros cur rest Hw; [reflexivity|].
  simpl in Hw. apply andb_true_iff in Hw as [Hc Hw].
  apply negb_true_iff in Hc.
  rewrite append_cons. simpl. rewrite Hc. apply IH. exact Hw.
Qed.

Lemma split_ws_join ws :
  Forall word ws -> split_ws (join " " ws) = ws.
Proof.
  unfold split_ws, join. induction 1 as [|w ws [Hne Hw] Hws IH];
    [reflexivity|].
  simpl. destruct ws as [|w' ws].
  - rewrite <- (append_nil_r w) at 1.
    rewrite split_ws_go_through by exact Hw.
    fold (String.rev w). simpl.
    destruct (String.rev w) eqn:Hr; [apply rev_nil_inv in Hr; contradiction|].
    rewrite <- Hr, rev_involutive. reflexivity.
  - rewrite split_ws_go_through by exact Hw. fold (String.rev w).
    change (" " +:+ String.concat " " (w' :: ws))
      with (String " " (String.concat " " (w' :: ws))).
    cbn [split_ws_go]. change (isspace " ") with true. cbn iota.
    destruct (String.rev w) eqn:Hr; [apply rev_nil_inv in Hr; contradiction|].
    rewrite <- Hr, rev_involutive, IH. reflexivity.
Qed.

End StringProofs.

(** * Further properties of the Scholarly adapter *)

Module NormalizerProofs.
Import Py Scholarly Notions.

(** X4. A string author field is cut at every [' and '] and each piece is
    trimmed: the names are the trimmed pieces, there is at least one, and
    trimming a name again changes nothing. *)
Theorem string_authors_are_trimmed E r b s p :
  bib_of r = Some b ->
  b !! "author" = Some (VStr s) ->
  normalize E r = Ok p ->
  authors p = strip <$> split " and " s /\
  authors p <> [] /\
  Forall (fun a => strip a = a) (authors p).
Proof.
  intros Hb Ha Hn.
  destruct (ScholarlyProofs.bib_of_dict _ _ Hb) as [d ->].
  rewrite (ScholarlyProofs.normalize_record _ _ _ Hb) in Hn.
  apply ScholarlyProofs.Publication_full_fields in Hn as (_ & Hl & _).
  unfold authors_arg in Hl. rewrite Ha in Hl. simpl in Hl.
  rewrite ScholarlyProofs.validate_list_strings in Hl.
  injection Hl as <-. split; [reflexivity|]. split.
  - unfold split.
    pose proof (StringProofs.split_go_not_nil " and " s 0 "") as Hne.
    destruct (split_go " and " 0 "" s); [contradiction|done].
  - apply Forall_fmap, Forall_forall. intros a _. simpl.
    apply StringProofs.strip_idempotent.
Qed.

Lemma string_authors_witness :
  authors {| title := "Unknown Title"; authors := ["Ann Lee"; "Bob Ray"];
             year := None; abstract := Some ""; venue := Some "";
             citations := Some 0; url := Some ""; bibtex := Some "";
             scholar_url := Some "" |}
    = strip <$> split " and " "Ann Lee  and  Bob Ray " /\
  authors {| title := "Unknown Title"; authors := ["Ann Lee"; "Bob Ray"];
             year := None; abstract := Some ""; venue := Some "";
             citations := Some 0; url := Some ""; bibtex := Some "";
             scholar_url := Some "" |} <> [] /\
  Forall (fun a => strip a = a)
    (authors {| title := "Unknown Title"; authors := ["Ann Lee"; "Bob Ray"];
                year := None; abstract := Some ""; venue := Some "";
                citations := Some 0; url := Some ""; bibtex := Some "";
                scholar_url := Some "" |}).
Proof.
  apply (string_authors_are_trimmed offline
           (VDict {["bib" := VDict {["author" :=
                                       VStr "Ann Lee  and  Bob Ray "]}]})
           {["author" := VStr "Ann Lee  and  Bob Ray "]}
           "Ann Lee  and  Bob Ray ");
    reflexivity.
Defined.

(** X5. A year that is an integer, or a string [int] accepts, becomes that
    integer (a year [0] included, although it is falsy). *)
Theorem numeric_year_is_kept E r b z p :
  bib_of r = Some b ->
  year_field b = VInt z \/
  (exists s, year_field b = VStr s /\ int_of_str s = Some z) ->
  normalize E r = Ok p ->
  year p = Some z.
Proof.
  intros Hb Hy Hn.
  destruct (ScholarlyProofs.bib_of_dict _ _ Hb) as [d ->].
  rewrite (ScholarlyProofs.normalize_record _ _ _ Hb) in Hn.
  apply ScholarlyProofs.Publication_full_fields in Hn as (_ & _ & Hyear).
  assert (year_arg b = VInt z) as Harg.
  { unfold year_arg. destruct Hy as [Hy|(s & Hy & Hs)]; rewrite Hy.
    - simpl. destruct (Z.eqb z 0); reflexivity.
    - simpl. rewrite Hs.
      destruct (String.eqb_spec s "") as [->|]; [discriminate|].
      reflexivity. }
  rewrite Harg in Hyear. simpl in Hyear. congruence.
Qed.

Lemma numeric_year_witness :
  year {| title := "Unknown Title"; authors := [""]; year := Some 2020;
          abstract := Some ""; venue := Some ""; citations := Some 0;
          url := Some ""; bibtex := Some ""; scholar_url := Some "" |}
  = Some 2020.
Proof.
  apply (numeric_year_is_kept offline
           (VDict {["bib" := VDict {["pub_year" := VStr " 2020 "]}]})
           {["pub_year" := VStr " 2020 "]});
    [reflexivity| |reflexivity].
  right. exists " 2020 ". split; reflexivity.
Defined.

End NormalizerProofs.

(** * Properties of the lookup endpoints *)

Module LookupProofs.
Import Py Scholarly Lookups Notions.

(** ** Nothing found *)

(** [next(search_query, None)] on a search that found nothing usable. *)
Lemma first_paper_none sq v :
  next_or sq VNone = Ok v -> truthy v = false ->
  first_paper sq = Raise (HTTPException 404 "Paper not found").
Proof.
  intros Hn Hv. unfold first_paper. rewrite Hn. simpl. rewrite Hv.
  reflexivity.
Qed.

(** X6. When the title search yields nothing (or a first item that is falsy),
    so that [next(search_query, None)] is a falsy [v], each of the four
    lookups raises HTTP 404 "Paper not found": the 404 raised inside the
    [try] is re-raised as it is, not turned into a 500. *)
Theorem nothing_found_is_404 E L title_ limit sq v :
  search_pubs E title_ = Ok sq ->
  next_or sq VNone = Ok v ->
  truthy v = false ->
  get_citations E L title_ limit
    = Raise (HTTPException 404 "Paper not found") /\
  get_similar_papers E title_ limit
    = Raise (HTTPException 404 "Paper not found") /\
  get_bibtex E title_ = Raise (HTTPException 404 "Paper not found") /\
  get_publication_details E title_
    = Raise (HTTPException 404 "Paper not found").
Proof.
  intros Hs Hn Hv. pose proof (first_paper_none _ _ Hn Hv) as Hf.
  unfold get_citations, get_similar_papers, get_bibtex,
    get_publication_details, reraise_http, try_except.
  rewrite Hs. simpl. rewrite Hf. simpl. repeat split.
Qed.

Lemma nothing_found_witness :
  get_citations offline registry "no such paper" 5
    = Raise (HTTPException 404 "Paper not found") /\
  get_similar_papers offline "no such paper" 5
    = Raise (HTTPException 404 "Paper not found") /\
  get_bibtex offline "no such paper"
    = Raise (HTTPException 404 "Paper not found") /\
  get_publication_details offline "no such paper"
    = Raise (HTTPException 404 "Paper not found").
Proof.
  apply (nothing_found_is_404 offline registry "no such paper" 5
           (yields [] Stop) VNone);
    reflexivity.
Defined.

(** ** GET /bibtex *)

(** The endpoint once the paper is found and expanded. *)
Lemma get_bibtex_found E title_ sq paper0 d b :
  search_pubs E title_ = Ok sq ->
  first_paper sq = Ok paper0 ->
  (fill E paper0).1 = Ok (VDict d) ->
  bib_of (VDict d) = Some b ->
  get_bibtex E title_ =
  reraise_http E "Failed to get BibTeX: "
    (made ←
       (if truthy (default (VStr "") (d !! "bibtex"))
        then Ok (default (VStr "") (d !! "bibtex"), VStr title_)
        else entry ← synthesize E (VDict b); Ok (VStr entry.1, entry.2));
     Ok {| bib_title := default made.2 (b !! "title");
           bib_bibtex := made.1;
           bib_authors := default (VStr "") (b !! "author");
           bib_year := default (default (VStr "") (b !! "year"))
                         (b !! "pub_year");
           bib_venue := or_ (default (VStr "") (b !! "venue"))
                            (default (VStr "") (b !! "journal")) |}).
Proof.
  intros Hs Hf Hfill Hb. unfold get_bibtex.
  rewrite Hs. simpl. rewrite Hf. simpl. rewrite Hfill. simpl.
  rewrite (ScholarlyProofs.bib_default _ _ Hb). reflexivity.
Qed.

(** X7. A bibtex string the paper carries is returned as it is; the endpoint
    then answers whatever the author, title and year fields hold, and a
    missing title is replaced by the title that was asked for. *)
Theorem supplied_bibtex_is_returned E title_ sq paper0 d b :
  search_pubs E title_ = Ok sq ->
  first_paper sq = Ok paper0 ->
  (fill E paper0).1 = Ok (VDict d) ->
  bib_of (VDict d) = Some b ->
  truthy (default (VStr "") (d !! "bibtex")) = true ->
  exists r, get_bibtex E title_ = Ok r /\
    bib_bibtex r = default (VStr "") (d !! "bibtex") /\
    bib_title r = default (VStr title_) (b !! "title").
Proof.
  intros Hs Hf Hfill Hb Ht.
  rewrite (get_bibtex_found _ _ _ _ _ _ Hs Hf Hfill Hb), Ht. simpl.
  eexists. repeat split.
Qed.

Lemma supplied_bibtex_witness :
  exists r,
    get_bibtex
      (strict (fun v => (Ok v, v))
         (fun _ => Ok (yields [VDict {["bibtex" := VStr "@book{knuth}"]}]
                         Stop)))
      "taocp" = Ok r /\
    bib_bibtex r
      = default (VStr "") (({["bibtex" := VStr "@book{knuth}"]}
                              : gmap string value) !! "bibtex") /\
    bib_title r
      = default (VStr "taocp") ((∅ : gmap string value) !! "title").
Proof.
  apply (supplied_bibtex_is_returned
           (strict (fun v => (Ok v, v))
              (fun _ => Ok (yields [VDict {["bibtex" := VStr "@book{knuth}"]}]
                              Stop)))
           "taocp" (yields [VDict {["bibtex" := VStr "@book{knuth}"]}] Stop)
           (VDict {["bibtex" := VStr "@book{knuth}"]}));
    reflexivity.
Defined.

(** X8. When the entry is synthesized, line 326 rebinds [title]: a paper without
    a title is then reported under the title ['Unknown'], not under the
    title that was asked for. *)
Theorem synthesized_title_is_unknown E title_ sq paper0 d b r :
  search_pubs E title_ = Ok sq ->
  first_paper sq = Ok paper0 ->
  (fill E paper0).1 = Ok (VDict d) ->
  bib_of (VDict d) = Some b ->
  truthy (default (VStr "") (d !! "bibtex")) = false ->
  b !! "title" = None ->
  get_bibtex E title_ = Ok r ->
  bib_title r = VStr "Unknown".
Proof.
  intros Hs Hf Hfill Hb Ht Hno.
  rewrite (get_bibtex_found _ _ _ _ _ _ Hs Hf Hfill Hb), Ht.
  unfold reraise_http, try_except, synthesize.
  destruct (entry_type_of (VDict b)) as [et|]; simpl;
    [|intros H; destruct e; discriminate H].
  rewrite Hno. simpl.
  destruct (cite_key_of E _ _) as [key|e]; simpl.
  - intros [= <-]. reflexivity.
  - destruct e; discriminate.
Qed.

Lemma synthesized_title_witness :
  bib_title
    {| bib_title := VStr "Unknown";
       bib_bibtex := VStr ("@misc{lee," +:+ nl
                           +:+ "  author = {Ann Lee}," +:+ nl
                           +:+ "  title = {Unknown}," +:+ nl
                           +:+ "}");
       bib_authors := VStr "Ann Lee"; bib_year := VStr "";
       bib_venue := VStr "" |} = VStr "Unknown".
Proof.
  apply (synthesized_title_is_unknown
           (strict (fun v => (Ok v, v))
              (fun _ => Ok (yields [VDict {["bib" := VDict
                                      {["author" := VStr "Ann Lee"]}]}]
                              Stop)))
           "a paper by lee"
           (yields [VDict {["bib" := VDict {["author" := VStr "Ann Lee"]}]}]
              Stop)
           (VDict {["bib" := VDict {["author" := VStr "Ann Lee"]}]})
           {["bib" := VDict {["author" := VStr "Ann Lee"]}]}
           {["author" := VStr "Ann Lee"]});
    reflexivity.
Defined.


(** A string without words has whitespace only. *)
Lemma split_ws_go_nil s : forall cur,
  split_ws_go cur s = [] ->
  cur = "" /\ forall c t, s = String c t -> isspace c = true.
Proof.
  induction s as [|c s IH]; intros cur; simpl.
  - destruct cur; [|discriminate]. intros _. split; [reflexivity|].
    discriminate.
  - destruct (isspace c) eqn:Hc.
    + destruct cur; [|discriminate]. intros _. split; [reflexivity|].
      intros c' t [= <- _]. exact Hc.
    + intros H. apply IH in H as [[=] _].
Qed.

Lemma blank_tail c s : split_ws (String c s) = [] -> split_ws s = [].
Proof.
  unfold split_ws. simpl. destruct (isspace c); [auto|].
  intros H. apply split_ws_go_nil in H as [[=] _].
Qed.

Lemma prefix_cons a p c s :
  String.prefix (String a p) (String c s) =
  match ascii_dec a c with
  | left _ => String.prefix p s
  | right _ => false
  end.
Proof. reflexivity. Qed.

Lemma blank_has_no_and s :
  split_ws s = [] -> substring_in " and " s = false.
Proof.
  induction s as [|c s IH]; [reflexivity|].
  intros Hs. cbn [substring_in].
  rewrite (IH (blank_tail _ _ Hs)), orb_false_r.
  rewrite prefix_cons. destruct (ascii_dec " " c) as [<-|]; [|reflexivity].
  destruct s as [|a s]; [reflexivity|].
  rewrite prefix_cons. destruct (ascii_dec "a" a) as [<-|]; [|reflexivity].
  apply blank_tail in Hs. unfold split_ws in Hs. simpl in Hs.
  apply split_ws_go_nil in Hs as [[=] _].
Qed.

(** An author field that is not empty but holds whitespace only has no last
    name to take: [first_author.split()[-1]] raises [IndexError]. *)
Lemma blank_author_has_no_key E s y :
  s <> "" -> split_ws s = [] ->
  cite_key_of E (VStr s) y = Raise IndexError.
Proof.
  intros Hne Hs. unfold cite_key_of. simpl.
  rewrite (blank_has_no_and _ Hs). simpl.
  apply String.eqb_neq in Hne. rewrite Hne. simpl. rewrite Hs. reflexivity.
Qed.

(** X9. For a paper without a bibtex string whose author field is a non-empty
    string of whitespace, the synthesis fails at line 332 and the endpoint
    raises HTTP 500 with the text of the [IndexError]. *)
Theorem blank_author_breaks_bibtex E title_ sq paper0 d b s :
  search_pubs E title_ = Ok sq ->
  first_paper sq = Ok paper0 ->
  (fill E paper0).1 = Ok (VDict d) ->
  bib_of (VDict d) = Some b ->
  truthy (default (VStr "") (d !! "bibtex")) = false ->
  b !! "author" = Some (VStr s) ->
  s <> "" -> split_ws s = [] ->
  get_bibtex E title_
  = Raise (HTTPException 500
             ("Failed to get BibTeX: " +:+ exn_str E IndexError)).
Proof.
  intros Hs Hf Hfill Hb Ht Ha Hne Hblank.
  rewrite (get_bibtex_found _ _ _ _ _ _ Hs Hf Hfill Hb), Ht.
  unfold reraise_http, try_except, synthesize.
  rewrite ScholarlyProofs.entry_type_of_spec. simpl. rewrite Ha. simpl.
  rewrite (blank_author_has_no_key _ _ _ Hne Hblank). reflexivity.
Qed.

Lemma blank_author_witness :
  get_bibtex
    (strict (fun v => (Ok v, v))
       (fun _ => Ok (yields [VDict {["bib" := VDict
                                      {["author" := VStr "  "]}]}] Stop)))
    "anonymous"
  = Raise (HTTPException 500 ("Failed to get BibTeX: " +:+ "error")).
Proof.
  apply (blank_author_breaks_bibtex
           (strict (fun v => (Ok v, v))
              (fun _ => Ok (yields [VDict {["bib" := VDict
                                      {["author" := VStr "  "]}]}] Stop)))
           "anonymous"
           (yields [VDict {["bib" := VDict {["author" := VStr "  "]}]}] Stop)
           (VDict {["bib" := VDict {["author" := VStr "  "]}]})
           {["bib" := VDict {["author" := VStr "  "]}]}
           {["author" := VStr "  "]} "  ");
    try reflexivity.
  discriminate.
Defined.


(** ** GET /search/author *)

Lemma author_loop_spec E stream : forall wanted i acc found,
  author_loop E wanted i stream acc = Ok found ->
  exists more, found = (acc ++ more)%list /\
               Forall2 (listed E) (yielded_from stream i wanted) more.
Proof.
  induction wanted as [|n IH]; intros i acc found; simpl.
  - intros Hloop. exists []. split; [|constructor].
    rewrite app_nil_r. destruct (stream i); congruence.
  - destruct (stream i) as [item| |e]; [| |discriminate].
    + destruct (Author_of E item) as [a|e] eqn:Ha; simpl; [|discriminate].
      intros Hloop. apply IH in Hloop as (more & -> & Hmore).
      exists (a :: more). rewrite <- app_assoc. split; [reflexivity|].
      constructor; assumption.
    + intros [= <-]. exists []. rewrite app_nil_r. split; constructor.
Qed.

Lemma author_loop_total E stream : forall wanted i acc,
  quiet_from stream i (S wanted) = true ->
  Forall (fun item => raises (Author_of E item) = false)
    (yielded_from stream i wanted) ->
  exists found, author_loop E wanted i stream acc = Ok found.
Proof.
  induction wanted as [|n IH]; intros i acc.
  - simpl. destruct (stream i); [eauto|eauto|discriminate].
  - rewrite ScholarlyProofs.quiet_from_S. simpl.
    destruct (stream i) as [item| |e]; [|eauto|discriminate].
    intros Hq [Hitem Hrest]%Forall_cons.
    destruct (Author_of E item) as [a|e]; [|discriminate].
    simpl. apply IH; assumption.
Qed.

Lemma author_loop_breaks E stream : forall wanted i acc,
  quiet_from stream i (S wanted) = false ->
  exists e, author_loop E wanted i stream acc = Raise e.
Proof.
  induction wanted as [|n IH]; intros i acc.
  - simpl. destruct (stream i); [discriminate|discriminate|eauto].
  - rewrite ScholarlyProofs.quiet_from_S. simpl.
    destruct (stream i) as [item| |e]; [|discriminate|eauto].
    intros Hq. destruct (Author_of E item) as [a|e]; [|eauto].
    simpl. apply IH. exact Hq.
Qed.

(** X10. Author search is all or nothing.  Whenever it answers, the authors
    are the validated first [limit] profiles the stream yields, in order,
    and the name is echoed.  It answers when none of the pulls the loop
    makes (the first [limit + 1]) raises and every one of those profiles is
    valid.  And a pull among them that raises, or one profile that is not
    valid (a field of the wrong type), fails the whole request with
    HTTP 500: unlike publications, a bad profile is not replaced by a
    default. *)
Theorem search_author_all_or_nothing E L name_ limit stream :
  scholarly_search_author L name_ = Ok stream ->
  (forall r, search_author E L name_ limit = Ok r ->
     Forall2 (listed E) (yielded limit stream) (found_authors r) /\
     found_query r = name_) /\
  (quiet (S limit) stream = true ->
   Forall (fun item => raises (Author_of E item) = false)
     (yielded limit stream) ->
   exists r, search_author E L name_ limit = Ok r) /\
  (quiet (S limit) stream = false \/
   Exists (fun item => raises (Author_of E item) = true)
     (yielded limit stream) ->
   exists detail,
     search_author E L name_ limit = Raise (HTTPException 500 detail)).
Proof.
  intros Hs. unfold search_author, try_except. rewrite Hs. simpl.
  destruct (author_loop E limit 0 stream []) as [found|e] eqn:Hloop; simpl.
  - pose proof Hloop as Hspec.
    apply author_loop_spec in Hspec as (more & -> & Hmore).
    simpl. split; [|split].
    + intros r [= <-]. auto.
    + eauto.
    + intros [Hq|Hbad]; exfalso.
      * destruct (author_loop_breaks E stream limit 0 [] Hq) as [e He].
        congruence.
      * apply Exists_exists in Hbad as (item & Hin & Hr).
        apply list_elem_of_lookup in Hin as [k Hk].
        destruct (Forall2_lookup_l _ _ _ _ _ Hmore Hk) as (a & _ & Ha).
        unfold listed in Ha. rewrite Ha in Hr. discriminate.
  - split; [|split].
    + discriminate.
    + intros Hq Hok.
      destruct (author_loop_total E stream limit 0 [] Hq Hok) as [found Hf].
      congruence.
    + eauto.
Qed.

Lemma search_author_witness :
  (forall r, search_author offline registry "lee" 3 = Ok r ->
     Forall2 (listed offline) (yielded 3 (yields roster Stop))
       (found_authors r) /\
     found_query r = "lee") /\
  (quiet 4 (yields roster Stop) = true ->
   Forall (fun item => raises (Author_of offline item) = false)
     (yielded 3 (yields roster Stop)) ->
   exists r, search_author offline registry "lee" 3 = Ok r) /\
  (quiet 4 (yields roster Stop) = false \/
   Exists (fun item => raises (Author_of offline item) = true)
     (yielded 3 (yields roster Stop)) ->
   exists detail,
     search_author offline registry "lee" 3
     = Raise (HTTPException 500 detail)).
Proof.
  apply (search_author_all_or_nothing offline registry "lee" 3
           (yields roster Stop)).
  reflexivity.
Defined.

(** ** GET /citations *)

(** X11. Once the paper is found and expanded, every answer holds the
    normalized first [limit] citing papers, and the count it reports is the
    paper's own [num_citations] when that is an integer, whatever the number
    of papers returned; only when the key is missing is it their number. *)
Theorem citations_count E L title_ limit sq paper0 d cited r :
  search_pubs E title_ = Ok sq ->
  first_paper sq = Ok paper0 ->
  (fill E paper0).1 = Ok (VDict d) ->
  scholarly_citedby L (VDict d) = Ok cited ->
  get_citations E L title_ limit = Ok r ->
  Forall2 (parsed E) (yielded limit cited) (citing_papers r) /\
  (List.length (citing_papers r) <= limit)%nat /\
  (d !! "num_citations" = None ->
   total_citations r = Z.of_nat (List.length (citing_papers r))) /\
  (forall z, d !! "num_citations" = Some (VInt z) -> total_citations r = z).
Proof.
  intros Hs Hf Hfill Hc. unfold get_citations, reraise_http, try_except.
  rewrite Hs. simpl. rewrite Hf. simpl. rewrite Hfill. simpl.
  rewrite Hc. simpl.
  destruct (search_loop E limit 0 cited []) as [ps|e] eqn:Hloop; simpl;
    [|destruct e; discriminate].
  apply ScholarlyProofs.search_loop_spec in Hloop as (qs & -> & Hqs).
  simpl.
  pose proof (Forall2_length _ _ _ Hqs) as Hlen.
  pose proof (ScholarlyProofs.yielded_from_length cited limit 0) as Hle.
  destruct (get (default (VDict ∅) (d !! "bib")) "title" (VStr title_))
    as [t|e]; simpl; [|destruct e; discriminate].
  destruct (validate_int E _) as [total|e] eqn:Htotal; simpl;
    [|destruct e; discriminate].
  destruct (validate_str E t) as [original|e]; simpl;
    [|destruct e; discriminate].
  intros [= <-]. simpl. split; [assumption|]. split; [lia|]. split.
  - intros Hnone. rewrite Hnone in Htotal. simpl in Htotal. congruence.
  - intros z Hz. rewrite Hz in Htotal. simpl in Htotal. congruence.
Qed.

Lemma citations_count_witness :
  Forall2 (parsed library) (yielded 5 (yields [paper "Graph Kernels"] Stop))
    (citing_papers one_citation) /\
  (List.length (citing_papers one_citation) <= 5)%nat /\
  ((({["bib" := VDict {["title" := VStr "Deep Learning"]}]}
       : gmap string value) !! "num_citations") = None ->
   total_citations one_citation
   = Z.of_nat (List.length (citing_papers one_citation))) /\
  (forall z,
     (({["bib" := VDict {["title" := VStr "Deep Learning"]}]}
         : gmap string value) !! "num_citations") = Some (VInt z) ->
     total_citations one_citation = z).
Proof.
  apply (citations_count library registry "deep learning" 5
           (yields shelf Stop)
           (paper "Deep Learning")
           {["bib" := VDict {["title" := VStr "Deep Learning"]}]}
           (yields [paper "Graph Kernels"] Stop));
    reflexivity.
Defined.

(** ** GET /publication/details *)

(** X12. Once the paper is found and expanded into a record whose bib entry is
    absent or a mapping, the details endpoint answers: with the Publication
    [parse_publication] makes of the paper and with the paper's bib mapping
    as [raw_data.bib]. *)
Theorem details_of_a_found_paper E title_ sq paper0 d b :
  search_pubs E title_ = Ok sq ->
  first_paper sq = Ok paper0 ->
  (fill E paper0).1 = Ok (VDict d) ->
  bib_of (VDict d) = Some b ->
  exists r, get_publication_details E title_ = Ok r /\
    parsed E (VDict d) (publication r) /\
    raw_bib (raw_data r) = VDict b /\
    raw_num_citations (raw_data r) = default (VInt 0) (d !! "num_citations").
Proof.
  intros Hs Hf Hfill Hb.
  unfold get_publication_details, reraise_http, try_except.
  rewrite Hs. simpl. rewrite Hf. simpl. rewrite Hfill. simpl.
  destruct (ScholarlyProofs.parse_publication_total E (VDict d) false)
    as [p Hp]; [simpl; eauto|].
  rewrite Hp. simpl. rewrite (ScholarlyProofs.bib_default _ _ Hb).
  eexists. split; [reflexivity|]. simpl. repeat split. exact Hp.
Qed.

Lemma details_witness :
  exists r, get_publication_details library "deep learning" = Ok r /\
    parsed library (paper "Deep Learning") (publication r) /\
    raw_bib (raw_data r) = VDict {["title" := VStr "Deep Learning"]} /\
    raw_num_citations (raw_data r)
    = default (VInt 0)
        (({["bib" := VDict {["title" := VStr "Deep Learning"]}]}
            : gmap string value) !! "num_citations").
Proof.
  apply (details_of_a_found_paper library "deep learning"
           (yields shelf Stop)
           (paper "Deep Learning")
           {["bib" := VDict {["title" := VStr "Deep Learning"]}]}
           {["title" := VStr "Deep Learning"]});
    reflexivity.
Defined.

(** ** GET /similar: the keyword query *)

(** X13. The keyword string line 272 builds has as its words exactly the first
    five words of the title, and at most five. *)
Theorem keywords_are_the_first_five_words (original : string) :
  split_ws (join " " (take 5 (split_ws original)))
  = take 5 (split_ws original) /\
  (List.length (split_ws (join " " (take 5 (split_ws original)))) <= 5)%nat.
Proof.
  assert (split_ws (join " " (take 5 (split_ws original)))
          = take 5 (split_ws original)) as Heq.
  { apply StringProofs.split_ws_join, Forall_take,
      StringProofs.split_ws_words. }
  split; [exact Heq|]. rewrite Heq, length_take. lia.
Qed.

End LookupProofs.

(** * Further properties of the OCR extraction function *)

Module ExtractionProofs.
Import Py Ocr Notions.

(** ** Requests the handler turns away *)

(** X14. A request with neither an [image] nor a [file_url] that is truthy (a
    missing key, [null], an empty string) is answered 400, before any import
    is tried and without touching a file. *)
Theorem no_source_is_400 P (e b : gmap string value) σ :
  e !! "httpMethod" <> Some (VStr "OPTIONS") ->
  json_loads P (default (VStr "{}") (e !! "body")) = Ok (VDict b) ->
  truthy (default VNone (b !! "image")) = false ->
  truthy (default VNone (b !! "file_url")) = false ->
  handler P (VDict e) σ =
    (Ok {| statusCode := 400; headers := cors_headers;
           body := ErrorBody "No image data or file URL provided" |}, σ).
Proof.
  intros Hm Hj Hi Hu.
  rewrite (OcrProofs.handler_not_preflight _ _ _ Hm). unfold io_try.
  rewrite (OcrProofs.handle_parsed _ _ _ _ Hj). cbn zeta.
  rewrite Hi, Hu. reflexivity.
Qed.

Lemma no_source_witness :
  handler (sample (fun _ => Ok (VDict {["image" := VStr ""]})) None)
    (request "POST" "empty image") ∅ =
    (Ok {| statusCode := 400; headers := cors_headers;
           body := ErrorBody "No image data or file URL provided" |}, ∅).
Proof.
  apply (no_source_is_400
           (sample (fun _ => Ok (VDict {["image" := VStr ""]})) None)
           _ {["image" := VStr ""]});
    [discriminate|reflexivity..].
Defined.

(** X15. A body that is no JSON, or JSON that is not an object, is answered 500
    with the text of the exception: the decoder's, or the [AttributeError]
    of [body.get]. *)
Theorem bad_body_is_500 P (e : gmap string value) σ :
  e !! "httpMethod" <> Some (VStr "OPTIONS") ->
  (forall err,
     json_loads P (default (VStr "{}") (e !! "body")) = Raise err ->
     handler P (VDict e) σ =
       (Ok {| statusCode := 500; headers := cors_headers;
              body := ErrorBody (exn_str P err) |}, σ)) /\
  (forall v,
     json_loads P (default (VStr "{}") (e !! "body")) = Ok v ->
     (forall b, v <> VDict b) ->
     handler P (VDict e) σ =
       (Ok {| statusCode := 500; headers := cors_headers;
              body := ErrorBody (exn_str P AttributeError) |}, σ)).
Proof.
  intros Hm. split.
  - intros err Hj. rewrite (OcrProofs.handler_not_preflight _ _ _ Hm).
    unfold io_try, handle. OcrProofs.io_unfold. rewrite Hj. reflexivity.
  - intros v Hj Hv. rewrite (OcrProofs.handler_not_preflight _ _ _ Hm).
    unfold io_try, handle. OcrProofs.io_unfold. rewrite Hj.
    destruct v as [| | | | |b]; try reflexivity.
    destruct (Hv b eq_refl).
Qed.

Lemma bad_body_witness :
  handler (sample (fun _ => Ok (VList [])) None) (request "POST" "[]") ∅ =
    (Ok {| statusCode := 500; headers := cors_headers;
           body := ErrorBody "error" |}, ∅).
Proof.
  destruct (bad_body_is_500 (sample (fun _ => Ok (VList [])) None)
              (<["httpMethod" := VStr "POST"]> {["body" := VStr "[]"]}) ∅)
    as [_ Hnot_object]; [discriminate|].
  apply (Hnot_object (VList [])); [reflexivity|discriminate].
Defined.

(** ** Every event gets a response *)

Lemma handle_answers P event σ resp σ' :
  handle P event σ = (Ok resp, σ') ->
  headers resp = cors_headers /\
  (statusCode resp = 200 \/ statusCode resp = 400).
Proof.
  unfold handle. OcrProofs.io_unfold.
  destruct (get event "body" (VStr "{}")) as [raw|]; [|discriminate].
  destruct (json_loads P raw) as [b|]; [|discriminate].
  destruct (get b "image" VNone) as [image|]; [|discriminate].
  destruct (get b "file_url" VNone) as [url|]; [|discriminate].
  destruct (get b "extract_type" (VStr "all")) as [et|]; [|discriminate].
  destruct (negb (truthy image) && negb (truthy url)).
  { intros [= <- _]. auto. }
  destruct (import_PaddleOCR P) as [err|].
  { destruct err; intros [= <- _] || discriminate. auto. }
  destruct (materialize P image url σ) as [[path|] σ1]; [|discriminate].
  unfold io_finally.
  destruct (process_with_paddleocr P path et σ1) as [[doc|] σ2];
    unfold mret, io_ret;
    destruct (cleanup path σ2) as [[[]|] σ3]; try discriminate.
  intros [= <- _]. auto.
Qed.

(** X16. For every event that is a dictionary the handler returns a response and
    raises nothing: its status is 200, 400 or 500 and it carries the CORS
    headers.  Whatever is raised past the preflight test becomes a 500. *)
Theorem handler_always_answers P (e : gmap string value) σ :
  exists resp σ',
    handler P (VDict e) σ = (Ok resp, σ') /\
    headers resp = cors_headers /\
    (statusCode resp = 200 \/ statusCode resp = 400 \/
     statusCode resp = 500).
Proof.
  unfold handler. OcrProofs.io_unfold.
  destruct (eq_str (default VNone (e !! "httpMethod")) "OPTIONS").
  { eexists _, _. split; [reflexivity|]. auto. }
  unfold io_try.
  destruct (handle P (VDict e) σ) as [[resp|err] σ'] eqn:Hh.
  - apply handle_answers in Hh as [Hh [Hs|Hs]];
      eexists _, _; (split; [reflexivity|]); auto.
  - eexists _, _. split; [reflexivity|]. auto.
Qed.


(** ** The text pass *)

Lemma blocks_of_texts res : forall texts i blocks,
  blocks_of res i texts = Ok blocks -> text <$> blocks = texts.
Proof.
  induction texts as [|t rest IH]; intros i blocks; simpl.
  - intros [= <-]. reflexivity.
  - destruct (match rec_scores res with
              | Some scores => index scores i
              | None => Ok 1%float
              end) as [c|]; simpl; [|discriminate].
    destruct (match dt_polys res with
              | Some polys => index polys i
              | None => Ok VNone
              end) as [b|]; simpl; [|discriminate].
    destruct (blocks_of res (S i) rest) as [more|] eqn:Hmore; simpl;
      [|discriminate].
    intros [= <-]. simpl. f_equal. exact (IH _ _ Hmore).
Qed.

(** X17. Whenever the text pass returns, its blocks carry the recognized texts
    of all results, one block per text and in the engine's order: nothing
    is dropped, merged or reordered. *)
Theorem text_blocks_keep_every_text ocr_result blocks :
  all_blocks ocr_result = Ok blocks ->
  text <$> blocks = all_texts ocr_result /\
  List.length blocks = List.length (all_texts ocr_result).
Proof.
  intros H.
  assert (text <$> blocks = all_texts ocr_result) as Heq.
  { revert blocks H.
    induction ocr_result as [|res rest IH]; intros blocks; simpl.
    - intros [= <-]. reflexivity.
    - destruct (rec_texts res) as [texts|] eqn:Ht; simpl.
      + destruct (blocks_of res 0 texts) as [here|] eqn:Hh; simpl;
          [|discriminate].
        destruct (all_blocks rest) as [more|]; simpl; [|discriminate].
        intros [= <-]. rewrite fmap_app, (blocks_of_texts _ _ _ _ Hh).
        unfold all_texts. simpl. rewrite Ht. simpl. f_equal.
        apply IH. reflexivity.
      + destruct (all_blocks rest) as [more|]; simpl; [|discriminate].
        intros [= <-]. unfold all_texts. simpl. rewrite Ht. simpl.
        apply IH. reflexivity. }
  split; [exact Heq|]. rewrite <- Heq, length_fmap. reflexivity.
Qed.

Lemma text_blocks_witness :
  text <$> [{| text := VStr "H2O"; confidence := 1%float; bbox := VNone |}]
    = all_texts [{| rec_texts := Some [VStr "H2O"]; rec_scores := None;
                    dt_polys := None |}] /\
  List.length [{| text := VStr "H2O"; confidence := 1%float;
                  bbox := VNone |}]
    = List.length
        (all_texts [{| rec_texts := Some [VStr "H2O"]; rec_scores := None;
                       dt_polys := None |}]).
Proof.
  apply (text_blocks_keep_every_text
           [{| rec_texts := Some [VStr "H2O"]; rec_scores := None;
               dt_polys := None |}]).
  reflexivity.
Defined.

Lemma blocks_of_short_scores res scores : forall texts i,
  rec_scores res = Some scores ->
  (i <= List.length scores < i + List.length texts)%nat ->
  blocks_of res i texts = Raise IndexError.
Proof.
  induction texts as [|t rest IH]; intros i Hs Hlen; simpl in *; [lia|].
  rewrite Hs. unfold index.
  destruct (scores !! i) as [c|] eqn:Hc; [|reflexivity]. simpl.
  apply lookup_lt_Some in Hc.
  destruct (match dt_polys res with
            | Some polys =>
              match polys !! i with
              | Some x => Ok x
              | None => Raise IndexError
              end
            | None => Ok VNone
            end) as [b|e] eqn:Hb; simpl.
  - rewrite (IH (S i) Hs) by lia. reflexivity.
  - destruct (dt_polys res) as [polys|]; [|discriminate].
    destruct (polys !! i); congruence.
Qed.

Lemma blocks_of_raises res : forall texts i e,
  blocks_of res i texts = Raise e -> e = IndexError.
Proof.
  induction texts as [|t rest IH]; intros i e; simpl; [discriminate|].
  unfold index.
  destruct (rec_scores res) as [scores|].
  - destruct (scores !! i); simpl; [|congruence].
    destruct (dt_polys res) as [polys|].
    + destruct (polys !! i); simpl; [|congruence].
      destruct (blocks_of res (S i) rest) eqn:Hr; simpl; [discriminate|].
      intros [= <-]. exact (IH _ _ Hr).
    + simpl. destruct (blocks_of res (S i) rest) eqn:Hr; simpl;
        [discriminate|].
      intros [= <-]. exact (IH _ _ Hr).
  - simpl. destruct (dt_polys res) as [polys|].
    + destruct (polys !! i); simpl; [|congruence].
      destruct (blocks_of res (S i) rest) eqn:Hr; simpl; [discriminate|].
      intros [= <-]. exact (IH _ _ Hr).
    + simpl. destruct (blocks_of res (S i) rest) eqn:Hr; simpl;
        [discriminate|].
      intros [= <-]. exact (IH _ _ Hr).
Qed.

(** X18. A result with fewer scores than texts makes [res.rec_scores[i]] run out
    of range: the text pass raises [IndexError] and returns no block at
    all, also none of the results that were complete. *)
Theorem short_scores_raise ocr_result :
  Exists (fun res =>
            exists texts scores,
              rec_texts res = Some texts /\ rec_scores res = Some scores /\
              (List.length scores < List.length texts)%nat) ocr_result ->
  all_blocks ocr_result = Raise IndexError.
Proof.
  induction 1 as [res rest (texts & scores & Ht & Hs & Hlen)|res rest _ IH];
    simpl.
  - rewrite Ht.
    rewrite (blocks_of_short_scores res scores texts 0 Hs) by lia.
    reflexivity.
  - rewrite IH.
    destruct (rec_texts res) as [texts|]; simpl; [|reflexivity].
    destruct (blocks_of res 0 texts) as [here|e] eqn:Hh; simpl;
      [reflexivity|].
    rewrite (blocks_of_raises _ _ _ _ Hh). reflexivity.
Qed.

Lemma short_scores_witness :
  all_blocks [{| rec_texts := Some [VStr "H2O"]; rec_scores := Some [];
                 dt_polys := None |}] = Raise IndexError.
Proof.
  apply short_scores_raise. constructor.
  exists [VStr "H2O"], []. repeat split. simpl. lia.
Defined.

(** ** The structure pass *)

Lemma add_item_frame item d d' :
  add_item item d = Ok d' ->
  success d' = success d /\ text_blocks d' = text_blocks d /\
  raw_text d' = raw_text d /\
  List.length (tables d')
  = (List.length (tables d) + count_type "table" [item])%nat /\
  List.length (figures d')
  = (List.length (figures d) + count_type "figure" [item])%nat /\
  List.length (formulas d')
  = (List.length (formulas d) + count_type "equation" [item])%nat.
Proof.
  unfold add_item, count_type. destruct item as [| | | | |m]; try discriminate.
  cbn [get mbind result_bind item_type List.filter].
  set (t := default (VStr "text") (m !! "type")).
  destruct (eq_str t "table") eqn:Htable.
  { destruct t as [| | |s| |]; try discriminate. simpl in Htable.
    apply String.eqb_eq in Htable as ->.
    destruct (get (default (VDict ∅) (m !! "res")) "html" (VStr ""));
      simpl; [|discriminate].
    destruct (get (default (VDict ∅) (m !! "res")) "cells" (VList []));
      simpl; [|discriminate].
    intros [= <-]. simpl. rewrite length_app. simpl. repeat split; lia. }
  destruct (eq_str t "figure") eqn:Hfigure.
  { destruct t as [| | |s| |]; try discriminate. simpl in Hfigure.
    apply String.eqb_eq in Hfigure as ->.
    destruct (get (default (VDict ∅) (m !! "res")) "caption" (VStr ""));
      simpl; [|discriminate].
    intros [= <-]. simpl. rewrite length_app. simpl. repeat split; lia. }
  destruct (eq_str t "equation") eqn:Hequation.
  { destruct t as [| | |s| |]; try discriminate. simpl in Hequation.
    apply String.eqb_eq in Hequation as ->.
    destruct (get (default (VDict ∅) (m !! "res")) "latex" (VStr ""));
      simpl; [|discriminate].
    intros [= <-]. simpl. rewrite length_app. simpl. repeat split; lia. }
  intros [= <-]. simpl. repeat split; lia.
Qed.

Lemma count_type_cons t item items :
  count_type t (item :: items)
  = (count_type t [item] + count_type t items)%nat.
Proof.
  unfold count_type. simpl.
  destruct (eq_str (item_type item) t); reflexivity.
Qed.

(** X19. Whenever the structure pass has gone through its items, the text
    blocks, the raw text and the success flag are as the text pass left
    them, and the tables, figures and formulas have grown by the number of
    items of type ['table'], ['figure'] and ['equation']; items of any other
    type add nothing. *)
Theorem structure_items_are_sorted_by_type items : forall d d',
  add_items items d = Ok d' ->
  success d' = success d /\ text_blocks d' = text_blocks d /\
  raw_text d' = raw_text d /\
  List.length (tables d')
  = (List.length (tables d) + count_type "table" items)%nat /\
  List.length (figures d')
  = (List.length (figures d) + count_type "figure" items)%nat /\
  List.length (formulas d')
  = (List.length (formulas d) + count_type "equation" items)%nat.
Proof.
  induction items as [|item rest IH]; intros d d'; simpl.
  - intros [= <-]. unfold count_type. simpl. repeat split; lia.
  - destruct (add_item item d) as [d1|] eqn:H1; simpl; [|discriminate].
    intros Hrest. apply add_item_frame in H1 as (S1 & T1 & R1 & A1 & F1 & Q1).
    apply IH in Hrest as (S2 & T2 & R2 & A2 & F2 & Q2).
    rewrite !(count_type_cons _ item rest).
    repeat split; try congruence; lia.
Qed.


Lemma structure_items_witness :
  success one_table = success no_text /\
  text_blocks one_table = text_blocks no_text /\
  raw_text one_table = raw_text no_text /\
  List.length (tables one_table)
  = (List.length (tables no_text)
     + count_type "table" table_and_header)%nat /\
  List.length (figures one_table)
  = (List.length (figures no_text)
     + count_type "figure" table_and_header)%nat /\
  List.length (formulas one_table)
  = (List.length (formulas no_text)
     + count_type "equation" table_and_header)%nat.
Proof.
  apply (structure_items_are_sorted_by_type table_and_header no_text).
  reflexivity.
Defined.

(** X20. When the structure pass ends in an [ImportError], raised by the import
    of PPStructure or by the call itself, [process_with_paddleocr] still
    returns: the document of the text pass, with its blocks and raw text
    and with empty tables, figures and formulas. *)
Theorem text_survives_missing_structure
  P path x σ ocr_result σ1 σ2 blocks raw :
  import_PaddleOCR P = None ->
  predict P path σ = (Ok ocr_result, σ1) ->
  all_blocks ocr_result = Ok blocks ->
  join_texts (text <$> blocks) = Ok raw ->
  (import_PPStructure P = Some ImportError /\ σ2 = σ1) \/
  (import_PPStructure P = None /\
   structure P path σ1 = (Raise ImportError, σ2)) ->
  process_with_paddleocr P path x σ =
    (Ok {| success := true; fallback := None; message := None;
           text_blocks := blocks; tables := []; figures := [];
           formulas := []; raw_text := raw; use_client_ocr := None |}, σ2).
Proof.
  intros Himp Hp Hb Hj Hstruct.
  unfold process_with_paddleocr, structure_pass, io_try.
  unfold mbind, io_bind, lift. rewrite Himp. simpl. rewrite Hp, Hb, Hj.
  destruct Hstruct as [[-> ->]|[-> Hs]]; simpl.
  - reflexivity.
  - rewrite Hs. reflexivity.
Qed.

Lemma text_survives_witness :
  process_with_paddleocr (sample loads_image None) (VStr "/tmp/tmp0.png")
    (VStr "table") ∅ =
    (Ok no_text, ∅).
Proof.
  apply (text_survives_missing_structure (sample loads_image None)
           (VStr "/tmp/tmp0.png") (VStr "table") ∅ [] ∅ ∅ [] "");
    try reflexivity.
  left. split; reflexivity.
Defined.

(** ** Which source is used *)

(** X21. When the body carries a truthy [image], [file_url] is never looked at:
    two requests that differ at most in [file_url] get the same response
    and leave the same files. *)
Theorem image_wins_over_file_url P (e1 e2 b1 b2 : gmap string value) σ :
  e1 !! "httpMethod" = e2 !! "httpMethod" ->
  json_loads P (default (VStr "{}") (e1 !! "body")) = Ok (VDict b1) ->
  json_loads P (default (VStr "{}") (e2 !! "body")) = Ok (VDict b2) ->
  delete "file_url" b1 = delete "file_url" b2 ->
  truthy (default VNone (b1 !! "image")) = true ->
  handler P (VDict e1) σ = handler P (VDict e2) σ.
Proof.
  intros Hm H1 H2 Hd Hi. unfold handler. OcrProofs.io_unfold. rewrite Hm.
  destruct (eq_str (default VNone (e2 !! "httpMethod")) "OPTIONS");
    [reflexivity|].
  assert (forall k, k <> "file_url" -> b1 !! k = b2 !! k) as Hsame.
  { intros k Hk.
    rewrite <- (lookup_delete_ne b1 "file_url" k) by congruence.
    rewrite <- (lookup_delete_ne b2 "file_url" k) by congruence.
    rewrite Hd. reflexivity. }
  unfold io_try.
  rewrite (OcrProofs.handle_parsed _ _ _ _ H1),
    (OcrProofs.handle_parsed _ _ _ _ H2).
  rewrite <- (Hsame "image"), <- (Hsame "extract_type") by discriminate.
  cbn zeta. rewrite Hi. simpl.
  destruct (import_PaddleOCR P) as [err|]; [destruct err; reflexivity|].
  unfold materialize. rewrite Hi. reflexivity.
Qed.

Lemma image_wins_witness :
  handler
    (sample (fun raw =>
               if eq_str raw "image only"
               then Ok (VDict {["image" := VStr "aGk="]})
               else Ok (VDict (<["file_url" := VStr "not-a-url"]>
                                 {["image" := VStr "aGk="]}))) None)
    (request "POST" "image only") ∅
  = handler
      (sample (fun raw =>
                 if eq_str raw "image only"
                 then Ok (VDict {["image" := VStr "aGk="]})
                 else Ok (VDict (<["file_url" := VStr "not-a-url"]>
                                   {["image" := VStr "aGk="]}))) None)
      (request "POST" "image and url") ∅.
Proof.
  apply (image_wins_over_file_url _ _ _
           {["image" := VStr "aGk="]}
           (<["file_url" := VStr "not-a-url"]> {["image" := VStr "aGk="]}));
    reflexivity.
Defined.

End ExtractionProofs.
